(** * Wastewater treatment simulation: a shallow embedding and its properties

    The development follows [src/wastewater_simulation.py].  Python
    dictionaries that the program copies and updates in place live in an
    explicit store, so that aliasing between the raw vector, the working
    vector and the recorded snapshots is visible; dictionaries that are
    only read (removal tables, effluent limits) are plain association
    lists.  The program's numbers are read as exact rationals: rounding of
    the floating-point operations is not modelled there.  [Generic] gives the
    same program over an arithmetic interface, and the last part runs it in
    IEEE 754 binary64, where a statement depends on the rounding. *)

From Stdlib Require Import QArith Qminmax ZArith Lia Lqa.
From Stdlib Require PrimFloat FloatOps SpecFloat Uint63.
From stdpp Require Import base list strings.

Open Scope string_scope.
Open Scope list_scope.
Open Scope Q_scope.

(** ** Numbers *)

(** Python's [a < b] on numbers. *)
Definition Qltb (a b : Q) : bool := negb (Qle_bool b a).

(** Python's two-argument [min] and [max]: the first argument wins ties. *)
Definition py_min (a b : Q) : Q := if Qltb b a then b else a.
Definition py_max (a b : Q) : Q := if Qltb a b then b else a.

(** ** Dictionaries

    A dictionary keeps its insertion order; keys are parameter names. *)

Definition dict (V : Type) := list (string * V).

Definition keys {V} (d : dict V) : list string := map fst d.

(** [d.get(k)], [None] when the key is absent. *)
Fixpoint dict_get {V} (k : string) (d : dict V) : option V :=
  match d with
  | [] => None
  | (k', v) :: d' => if String.eqb k k' then Some v else dict_get k d'
  end.

(** [k in d] *)
Definition dict_mem {V} (k : string) (d : dict V) : bool :=
  match dict_get k d with Some _ => true | None => false end.

(** [d[k] = v]: overwrite in place, or append a new key at the end. *)
Fixpoint dict_set {V} (k : string) (v : V) (d : dict V) : dict V :=
  match d with
  | [] => [(k, v)]
  | (k', v') :: d' =>
      if String.eqb k k' then (k', v) :: d' else (k', v') :: dict_set k v d'
  end.

(** ** The store and the monad of the program *)

Abbreviation loc := nat.

(** The store holds the concentration dictionaries. *)
Abbreviation heap := (list (dict Q)).

Inductive exn :=
| KeyError (k : string)   (* [d[k]] on a missing key *)
| IndexError              (* [l[-1]] on an empty list *)
| BadRef (l : loc).       (* a location outside the store; no Python program reaches it *)

Inductive result (A : Type) :=
| Ok (a : A)
| Raise (e : exn).
Arguments Ok {A} a.
Arguments Raise {A} e.

Definition M (A : Type) : Type := heap -> result (A * heap).

Definition ret {A} (a : A) : M A := fun h => Ok (a, h).

Definition bind {A B} (m : M A) (k : A -> M B) : M B :=
  fun h => match m h with
           | Ok (a, h') => k a h'
           | Raise e => Raise e
           end.

Definition raise {A} (e : exn) : M A := fun _ => Raise e.

Notation "'do' x <- c ; k" := (bind c (fun x => k))
  (at level 10, x name, c at level 100, k at level 200).
Notation "'do' ' p <- c ; k" := (bind c (fun x => match x with p => k end))
  (at level 10, p pattern, c at level 100, k at level 200).
Notation "'exec' c ; k" := (bind c (fun _ => k))
  (at level 10, c at level 100, k at level 200).

(** [d.copy()]: a new dictionary with the same items. *)
Definition dict_copy (l : loc) : M loc :=
  fun h : heap => match h !! l with
           | Some d => Ok (List.length h, h ++ [d])
           | None => Raise (BadRef l)
           end.

(** A dictionary literal evaluated by the program. *)
Definition dict_new (d : dict Q) : M loc :=
  fun h => Ok (List.length h, h ++ [d]).

(** Reading the whole dictionary, as [d.items()] does. *)
Definition dict_items (l : loc) : M (dict Q) :=
  fun h : heap => match h !! l with
           | Some d => Ok (d, h)
           | None => Raise (BadRef l)
           end.

(** [d[k]] *)
Definition getitem (l : loc) (k : string) : M Q :=
  fun h : heap => match h !! l with
           | Some d => match dict_get k d with
                       | Some v => Ok (v, h)
                       | None => Raise (KeyError k)
                       end
           | None => Raise (BadRef l)
           end.

(** [d[k] = v] *)
Definition setitem (l : loc) (k : string) (v : Q) : M unit :=
  fun h : heap => match h !! l with
           | Some d => Ok (tt, <[l := dict_set k v d]> h)
           | None => Raise (BadRef l)
           end.

(** [d[k] *= x] *)
Definition imul (l : loc) (k : string) (x : Q) : M unit :=
  do v <- getitem l k; setitem l k (v * x).

(** [for k, v in items: body(k, v)] *)
Fixpoint for_items {V} (items : dict V) (body : string -> V -> M unit) : M unit :=
  match items with
  | [] => ret tt
  | (k, v) :: rest => exec body k v; for_items rest body
  end.

(** ** The simulation object *)

(** An effluent limit is a number (a ceiling) or a pair (an inclusive range). *)
Inductive limit :=
| Scalar (L : Q)
| Range (lo hi : Q).

(** The bound methods that a treatment unit can carry. *)
Inductive unit_function :=
| FineScreen
| PlainSedimentation
| CoagulationTank
| FlocculationChamber
| Sedimentation
| Electrocoagulation
| RapidSandFilter.

(** [{'name': ..., 'function': ...}] *)
Record treatment_unit := {
  name : string;
  function : unit_function
}.

Definition history := list (string * loc).

Record simulation := {
  plan : Z;
  flow_rate : Q;
  hourly_flow : Q;
  raw_wastewater : loc;
  effluent_limits : dict limit;
  treatment_units : list treatment_unit;
  concentration_history : history
}.

(** [self.concentration_history = hist] *)
Definition set_history (self : simulation) (hist : history) : simulation :=
  {| plan := plan self;
     flow_rate := flow_rate self;
     hourly_flow := hourly_flow self;
     raw_wastewater := raw_wastewater self;
     effluent_limits := effluent_limits self;
     treatment_units := treatment_units self;
     concentration_history := hist |}.

(** [self.concentration_history.append(entry)] *)
Definition append_history (self : simulation) (entry : string * loc) : simulation :=
  set_history self (concentration_history self ++ [entry]).

Definition _initialize_treatment_units (self_plan : Z) : list treatment_unit :=
  if (self_plan =? 1)%Z then
    [ {| name := "Fine Screen"; function := FineScreen |};
      {| name := "Plain Sedimentation"; function := PlainSedimentation |};
      {| name := "Electrocoagulation"; function := Electrocoagulation |};
      {| name := "Rapid Sand Filter"; function := RapidSandFilter |} ]
  else
    [ {| name := "Fine Screen"; function := FineScreen |};
      {| name := "Coagulation Tank"; function := CoagulationTank |};
      {| name := "Flocculation Chamber"; function := FlocculationChamber |};
      {| name := "Sedimentation"; function := Sedimentation |};
      {| name := "Electrocoagulation"; function := Electrocoagulation |};
      {| name := "Rapid Sand Filter"; function := RapidSandFilter |} ].

(** The dictionary literal bound to [self.raw_wastewater]. *)
Definition raw_wastewater_literal (plan : Z) : dict Q :=
  [ ("pH", 7.5);
    ("TSS", if (plan =? 1)%Z then 47.6 else 47.57);
    ("TDS", 669);
    ("COD", 1552);
    ("BOD", if (plan =? 1)%Z then 1025 else 536);
    ("Conductivity", 1214.4);
    ("Turbidity", 345);
    ("Alkalinity", 151.3);
    ("Total Nitrates", if (plan =? 1)%Z then 28.2 else 26.8);
    ("Total Phosphates", 96.6);
    ("Total Color", if (plan =? 1)%Z then 11423.3 else 10852.1);
    ("Total Zinc", 5.0) ].

(** The dictionary literal bound to [self.effluent_limits]. *)
Definition effluent_limits_literal : dict limit :=
  [ ("TSS", Scalar 20);
    ("TDS", Scalar 500);
    ("COD", Scalar 150);
    ("BOD", Scalar 30);
    ("Conductivity", Scalar 1000);
    ("Turbidity", Scalar 5);
    ("Alkalinity", Range 50 150);
    ("Total Nitrates", Scalar 10);
    ("Total Phosphates", Scalar 5);
    ("Total Color", Scalar 50);
    ("Total Zinc", Scalar 2.0) ].

(** [WastewaterTreatmentSimulation(plan)] *)
Definition __init__ (plan : Z) : M simulation :=
  let flow_rate := 200 in
  do raw <- dict_new (raw_wastewater_literal plan);
  ret {| plan := plan;
         flow_rate := flow_rate;
         hourly_flow := flow_rate / 24;
         raw_wastewater := raw;
         effluent_limits := effluent_limits_literal;
         treatment_units := _initialize_treatment_units plan;
         concentration_history := [] |}.

(** ** Treatment units

    The removal tables are the dictionary literals of the stage methods,
    in the order in which they are written. *)

Definition fine_screen_removals : dict Q :=
  [ ("BOD", 0.025);
    ("COD", 0.0);
    ("TSS", 0.10);
    ("TDS", 0.0);
    ("Total Color", 0.0);
    ("Turbidity", 0.025);
    ("Conductivity", 0.025);
    ("Alkalinity", 0.025);
    ("Total Nitrates", 0.025);
    ("Total Phosphates", 0.025);
    ("Total Zinc", 0.05) ].

Definition plain_sedimentation_removals : dict Q :=
  [ ("BOD", 0.325);
    ("COD", 0.25);
    ("TSS", 0.60);
    ("TDS", 0.0);
    ("Total Color", 0.15);
    ("Turbidity", 0.40);
    ("Conductivity", 0.025);
    ("Alkalinity", 0.025);
    ("Total Nitrates", 0.025);
    ("Total Phosphates", 0.15);
    ("Total Zinc", 0.30) ].

Definition coagulation_tank_removals : dict Q :=
  [ ("BOD", 0.20);
    ("COD", 0.30);
    ("TSS", 0.55);
    ("TDS", 0.075);
    ("Total Color", 0.50);
    ("Turbidity", 0.65);
    ("Conductivity", 0.10);
    ("Alkalinity", 0.20);
    ("Total Nitrates", 0.20);
    ("Total Phosphates", 0.80);
    ("Total Zinc", 0.60) ].

Definition flocculation_chamber_removals : dict Q :=
  [ ("BOD", 0.075);
    ("COD", 0.15);
    ("TSS", 0.30);
    ("TDS", 0.025);
    ("Total Color", 0.20);
    ("Turbidity", 0.45);
    ("Conductivity", 0.025);
    ("Alkalinity", 0.025);
    ("Total Nitrates", 0.025);
    ("Total Phosphates", 0.15);
    ("Total Zinc", 0.20) ].

Definition sedimentation_removals : dict Q :=
  [ ("BOD", 0.50);
    ("COD", 0.35);
    ("TSS", 0.70);
    ("TDS", 0.0);
    ("Total Color", 0.30);
    ("Turbidity", 0.55);
    ("Conductivity", 0.025);
    ("Alkalinity", 0.025);
    ("Total Nitrates", 0.025);
    ("Total Phosphates", 0.875);
    ("Total Zinc", 0.50) ].

Definition electrocoagulation_plan1_removals : dict Q :=
  [ ("BOD", 0.725);
    ("COD", 0.725);
    ("TSS", 0.825);
    ("TDS", 0.20);
    ("Total Color", 0.725);
    ("Turbidity", 0.875);
    ("Conductivity", 0.20);
    ("Alkalinity", 0.20);
    ("Total Nitrates", 0.30);
    ("Total Phosphates", 0.80);
    ("Total Zinc", 0.85) ].

Definition electrocoagulation_plan2_removals : dict Q :=
  [ ("BOD", 0.75);
    ("COD", 0.725);
    ("TSS", 0.825);
    ("TDS", 0.20);
    ("Total Color", 0.73);
    ("Turbidity", 0.825);
    ("Conductivity", 0.20);
    ("Alkalinity", 0.20);
    ("Total Nitrates", 0.30);
    ("Total Phosphates", 0.80);
    ("Total Zinc", 0.85) ].

Definition rapid_sand_filter_removals : dict Q :=
  [ ("BOD", 0.20);
    ("COD", 0.10);
    ("TSS", 0.875);
    ("TDS", 0.0);
    ("Total Color", 0.30);
    ("Turbidity", 0.895);
    ("Conductivity", 0.025);
    ("Alkalinity", 0.025);
    ("Total Nitrates", 0.025);
    ("Total Phosphates", 0.30);
    ("Total Zinc", 0.20) ].

(** Fine Screen *)
Definition fine_screen (self : simulation) (concentrations : loc) : M loc :=
  let removals := fine_screen_removals in
  do new_concentrations <- dict_copy concentrations;
  exec for_items removals (fun param removal =>
         imul new_concentrations param (1 - removal));
  ret new_concentrations.

(** Plain Sedimentation (Plan 1) *)
Definition plain_sedimentation (self : simulation) (concentrations : loc) : M loc :=
  let removals := plain_sedimentation_removals in
  do new_concentrations <- dict_copy concentrations;
  exec for_items removals (fun param removal =>
         imul new_concentrations param (1 - removal));
  ret new_concentrations.

(** Coagulation Tank (Plan 2) *)
Definition coagulation_tank (self : simulation) (concentrations : loc) : M loc :=
  let removals := coagulation_tank_removals in
  do new_concentrations <- dict_copy concentrations;
  exec for_items removals (fun param removal =>
         imul new_concentrations param (1 - removal));
  ret new_concentrations.

(** Flocculation Chamber (Plan 2) *)
Definition flocculation_chamber (self : simulation) (concentrations : loc) : M loc :=
  let removals := flocculation_chamber_removals in
  do new_concentrations <- dict_copy concentrations;
  exec for_items removals (fun param removal =>
         imul new_concentrations param (1 - removal));
  ret new_concentrations.

(** Sedimentation (Plan 2) *)
Definition sedimentation (self : simulation) (concentrations : loc) : M loc :=
  let removals := sedimentation_removals in
  do new_concentrations <- dict_copy concentrations;
  exec for_items removals (fun param removal =>
         imul new_concentrations param (1 - removal));
  ret new_concentrations.

(** The pH rule of the electrocoagulation unit. *)
Definition _adjust_pH (current_pH : Q) : Q :=
  if Qltb current_pH 7 then py_min (current_pH * 1.1) 7.0
  else if Qltb 8 current_pH then py_max (current_pH * 0.95) 7.5
  else current_pH.

(** Electrocoagulation: the table depends on the plan, and pH is set by
    [_adjust_pH] from the pH of the incoming vector. *)
Definition electrocoagulation (self : simulation) (concentrations : loc) : M loc :=
  let removals :=
    if (plan self =? 1)%Z then electrocoagulation_plan1_removals
    else electrocoagulation_plan2_removals in
  do new_concentrations <- dict_copy concentrations;
  exec for_items removals (fun param removal =>
         imul new_concentrations param (1 - removal));
  do current_pH <- getitem concentrations "pH";
  exec setitem new_concentrations "pH" (_adjust_pH current_pH);
  ret new_concentrations.

(** Rapid Sand Filter *)
Definition rapid_sand_filter (self : simulation) (concentrations : loc) : M loc :=
  let removals := rapid_sand_filter_removals in
  do new_concentrations <- dict_copy concentrations;
  exec for_items removals (fun param removal =>
         imul new_concentrations param (1 - removal));
  ret new_concentrations.

(** [unit['function'](concentrations)]: calling the bound method. *)
Definition call (self : simulation) (f : unit_function) : loc -> M loc :=
  match f with
  | FineScreen => fine_screen self
  | PlainSedimentation => plain_sedimentation self
  | CoagulationTank => coagulation_tank self
  | FlocculationChamber => flocculation_chamber self
  | Sedimentation => sedimentation self
  | Electrocoagulation => electrocoagulation self
  | RapidSandFilter => rapid_sand_filter self
  end.

(** ** Running the pipeline *)

(** The body of [for unit in self.treatment_units]. *)
Fixpoint run_units (units : list treatment_unit) (self : simulation)
    (current_concentrations : loc) : M simulation :=
  match units with
  | [] => ret self
  | unit :: rest =>
      do current_concentrations <- call self (function unit) current_concentrations;
      do snapshot <- dict_copy current_concentrations;
      run_units rest (append_history self (name unit, snapshot)) current_concentrations
  end.

(** [run_simulation] returns the updated object and the history it returns
    to the caller. *)
Definition run_simulation (self : simulation) : M (simulation * history) :=
  do current_concentrations <- dict_copy (raw_wastewater self);
  do snapshot <- dict_copy current_concentrations;
  let self := set_history self [("Raw Wastewater", snapshot)] in
  do self <- run_units (treatment_units self) self current_concentrations;
  ret (self, concentration_history self).

(** ** Compliance *)

Definition compliance_record := dict (Q * bool).

(** [limit[0] <= value <= limit[1]] for a range, [value <= limit] otherwise. *)
Definition meets_limit (lim : limit) (value : Q) : bool :=
  match lim with
  | Range lo hi => Qle_bool lo value && Qle_bool value hi
  | Scalar L => Qle_bool value L
  end.

(** The body of [for param, value in final_effluent.items()]. *)
Fixpoint compliance_loop (limits : dict limit) (items : dict Q)
    (compliance : compliance_record) : compliance_record :=
  match items with
  | [] => compliance
  | (param, value) :: rest =>
      if String.eqb param "pH" then
        compliance_loop limits rest (dict_set param (value, true) compliance)
      else if negb (dict_mem param limits) then
        compliance_loop limits rest compliance
      else
        match dict_get param limits with
        | Some lim =>
            compliance_loop limits rest
              (dict_set param (value, meets_limit lim value) compliance)
        | None => compliance_loop limits rest compliance
        end
  end.

(** [l[-1]] *)
Definition last_entry (hist : history) : M (string * loc) :=
  match last hist with
  | Some e => ret e
  | None => raise IndexError
  end.

Definition evaluate_compliance (self : simulation) : M (simulation * compliance_record) :=
  do self <- match concentration_history self with
             | [] => do r <- run_simulation self; ret (fst r)
             | _ :: _ => ret self
             end;
  do entry <- last_entry (concentration_history self);
  let final_effluent := snd entry in
  do items <- dict_items final_effluent;
  ret (self, compliance_loop (effluent_limits self) items []).

(** ** The stage transform and the value-level reading of the program

    Every stage method has the same body: copy the incoming vector, then
    scale the entries named by its table.  [apply_removals] is that body;
    [attenuate] is what it computes on the copied dictionary. *)

Definition apply_removals (removals : dict Q) (concentrations : loc) : M loc :=
  do new_concentrations <- dict_copy concentrations;
  exec for_items removals (fun param removal =>
         imul new_concentrations param (1 - removal));
  ret new_concentrations.

Fixpoint attenuate (removals : dict Q) (d : dict Q) : dict Q :=
  match removals with
  | [] => d
  | (param, removal) :: rest =>
      attenuate rest
        (match dict_get param d with
         | Some v => dict_set param (v * (1 - removal)) d
         | None => d
         end)
  end.

(** The table a stage method uses under a given plan. *)
Definition removals_of (plan : Z) (f : unit_function) : dict Q :=
  match f with
  | FineScreen => fine_screen_removals
  | PlainSedimentation => plain_sedimentation_removals
  | CoagulationTank => coagulation_tank_removals
  | FlocculationChamber => flocculation_chamber_removals
  | Sedimentation => sedimentation_removals
  | Electrocoagulation =>
      if (plan =? 1)%Z then electrocoagulation_plan1_removals
      else electrocoagulation_plan2_removals
  | RapidSandFilter => rapid_sand_filter_removals
  end.

(** The vector a stage method returns, as a function of the vector it is given. *)
Definition stage_value (plan : Z) (f : unit_function) (d : dict Q) : dict Q :=
  let new := attenuate (removals_of plan f) d in
  match f with
  | Electrocoagulation =>
      match dict_get "pH" d with
      | Some v => dict_set "pH" (_adjust_pH v) new
      | None => new
      end
  | _ => new
  end.

(** The stage entries of the history, by value: each stage is applied to the
    vector the previous one returned. *)
Fixpoint run_value (plan : Z) (units : list treatment_unit) (prev : dict Q)
    : list (string * dict Q) :=
  match units with
  | [] => []
  | unit :: rest =>
      let next := stage_value plan (function unit) prev in
      (name unit, next) :: run_value plan rest next
  end.

(** The history as the specification words it:
    [[("Raw Wastewater", raw)] + [(stage.name, stage.transform(prev)) ...]]. *)
Definition history_value (plan : Z) (units : list treatment_unit) (raw : dict Q)
    : list (string * dict Q) :=
  ("Raw Wastewater", raw) :: run_value plan units raw.

(** The vector after the last stage. *)
Definition final_value (plan : Z) (units : list treatment_unit) (raw : dict Q) : dict Q :=
  fold_left (fun d unit => stage_value plan (function unit) d) units raw.

(** Where [run_units] puts its dictionaries: from a store of size [n], each
    stage allocates its result at [n] and the recorded copy at [n + 1]. *)
Fixpoint snapshot_locs (n : nat) (names : list string) : history :=
  match names with
  | [] => []
  | nm :: rest => (nm, S n) :: snapshot_locs (S (S n)) rest
  end.

Definition store_of (entries : list (string * dict Q)) : heap :=
  flat_map (fun e => [snd e; snd e]) entries.

(** A history read through the store. *)
Definition resolve (h : heap) (hist : history) : list (string * option (dict Q)) :=
  map (fun e => (fst e, h !! snd e)) hist.

(** The record one parameter of the final vector receives. *)
Definition compliance_entry (limits : dict limit) (param : string) (value : Q)
    : option (Q * bool) :=
  if String.eqb param "pH" then Some (value, true)
  else match dict_get param limits with
       | Some lim => Some (value, meets_limit lim value)
       | None => None
       end.

(** ** Well-formedness *)

(** The tracked parameters, in display order. *)
Definition parameters : list string :=
  [ "pH"; "TSS"; "TDS"; "COD"; "BOD"; "Conductivity"; "Turbidity"; "Alkalinity";
    "Total Nitrates"; "Total Phosphates"; "Total Color"; "Total Zinc" ].

Definition mem (k : string) (ks : list string) : bool := existsb (String.eqb k) ks.

Fixpoint distinct (ks : list string) : bool :=
  match ks with
  | [] => true
  | k :: rest => negb (mem k rest) && distinct rest
  end.

(** The dictionary has every key of [ks]. *)
Definition covers {V} (d : dict V) (ks : list string) : bool :=
  forallb (fun k => dict_mem k d) ks.

Definition nonnegative (d : dict Q) : bool :=
  forallb (fun kv => Qle_bool 0 (snd kv)) d.

(** A concentration vector: a dictionary (distinct keys) with every tracked
    parameter and no negative value. *)
Definition well_formed (d : dict Q) : bool :=
  distinct (keys d) && covers d parameters && nonnegative d.

(** A removal profile: a dictionary from tracked parameters to fractions in [0, 1]. *)
Definition is_profile (removals : dict Q) : bool :=
  distinct (keys removals)
  && forallb (fun k => mem k parameters) (keys removals)
  && forallb (fun kv => Qle_bool 0 (snd kv) && Qle_bool (snd kv) 1) removals.

(** The stage methods other than electrocoagulation. *)
Definition plain_stage (f : unit_function) : bool :=
  match f with Electrocoagulation => false | _ => true end.

(** The plan a selector stands for: the program only ever asks whether the
    selector equals 1. *)
Definition selected (p : Z) : Z := if (p =? 1)%Z then 1%Z else 2%Z.

(** ** Further value-level readings *)

(** The key on which a loop [for k, _ in items: d[k] *= ...] stops: the
    first key of [items] that [d] lacks. *)
Fixpoint first_missing {V W} (items : dict W) (d : dict V) : option string :=
  match items with
  | [] => None
  | (k, _) :: rest => if dict_mem k d then first_missing rest d else Some k
  end.

(** The removal fraction a stage applies to a parameter. *)
Definition fraction (plan : Z) (f : unit_function) (param : string) : Q :=
  default 0 (dict_get param (removals_of plan f)).

(** The successive multiplications a pipeline performs on one value. *)
Definition scaled (plan : Z) (units : list treatment_unit) (param : string) (v : Q) : Q :=
  fold_left (fun acc unit => acc * (1 - fraction plan (function unit) param)) units v.

(** The pH after a pipeline: the rule is applied at each electrocoagulation. *)
Definition pH_after (units : list treatment_unit) (v : Q) : Q :=
  fold_left (fun acc unit => if plain_stage (function unit) then acc else _adjust_pH acc)
            units v.

(** The keys for which the evaluator emits a record. *)
Definition reported (limits : dict limit) (k : string) : bool :=
  String.eqb k "pH" || dict_mem k limits.

(** ** The program over either arithmetic

    The definitions above read the program's numbers as exact rationals.
    The program itself computes in binary64.  [Generic] is the same program,
    definition by definition, over an [arithmetic]: the operations the source
    applies to numbers.  At [exact] it is the program above; at [binary64] it
    rounds as the source does. *)

Class arithmetic (N : Type) := {
  literal : Q -> N;          (* a numeric literal of the source *)
  times : N -> N -> N;       (* [a * b] *)
  minus : N -> N -> N;       (* [a - b] *)
  less : N -> N -> bool;     (* [a < b] *)
  at_most : N -> N -> bool   (* [a <= b] *)
}.

Module Generic.
Section Program.
Context {N : Type} {A : arithmetic N}.

Definition M (T : Type) : Type := list (dict N) -> result (T * list (dict N)).

Definition ret {T} (a : T) : M T := fun h => Ok (a, h).

Definition bind {T U} (m : M T) (k : T -> M U) : M U :=
  fun h => match m h with
           | Ok (a, h') => k a h'
           | Raise e => Raise e
           end.

Definition raise {T} (e : exn) : M T := fun _ => Raise e.

Local Notation "'step' x <- c ; k" := (bind c (fun x => k))
  (at level 10, x name, c at level 100, k at level 200).
Local Notation "'step_' c ; k" := (bind c (fun _ => k))
  (at level 10, c at level 100, k at level 200).

Definition dict_copy (l : loc) : M loc :=
  fun h : list (dict N) =>
    match h !! l with
    | Some d => Ok (List.length h, h ++ [d])
    | None => Raise (BadRef l)
    end.

Definition dict_new (d : dict N) : M loc :=
  fun h => Ok (List.length h, h ++ [d]).

Definition dict_items (l : loc) : M (dict N) :=
  fun h : list (dict N) =>
    match h !! l with
    | Some d => Ok (d, h)
    | None => Raise (BadRef l)
    end.

Definition getitem (l : loc) (k : string) : M N :=
  fun h : list (dict N) =>
    match h !! l with
    | Some d => match dict_get k d with
                | Some v => Ok (v, h)
                | None => Raise (KeyError k)
                end
    | None => Raise (BadRef l)
    end.

Definition setitem (l : loc) (k : string) (v : N) : M unit :=
  fun h : list (dict N) =>
    match h !! l with
    | Some d => Ok (tt, <[l := dict_set k v d]> h)
    | None => Raise (BadRef l)
    end.

Definition imul (l : loc) (k : string) (x : N) : M unit :=
  step v <- getitem l k; setitem l k (times v x).

Fixpoint for_items {V} (items : dict V) (body : string -> V -> M unit) : M unit :=
  match items with
  | [] => ret tt
  | (k, v) :: rest => step_ body k v; for_items rest body
  end.

Definition py_min (a b : N) : N := if less b a then b else a.
Definition py_max (a b : N) : N := if less a b then b else a.

Definition __init__ (plan : Z) : M simulation :=
  let flow_rate := 200 in  (* never read: kept as written above *)
  step raw <- dict_new (map (fun kv => (fst kv, literal (snd kv)))
                            (raw_wastewater_literal plan));
  ret {| plan := plan;
         flow_rate := flow_rate;
         hourly_flow := flow_rate / 24;
         raw_wastewater := raw;
         effluent_limits := effluent_limits_literal;
         treatment_units := _initialize_treatment_units plan;
         concentration_history := [] |}.

Definition fine_screen (self : simulation) (concentrations : loc) : M loc :=
  let removals := fine_screen_removals in
  step new_concentrations <- dict_copy concentrations;
  step_ for_items removals (fun param removal =>
          imul new_concentrations param (minus (literal 1) (literal removal)));
  ret new_concentrations.

Definition plain_sedimentation (self : simulation) (concentrations : loc) : M loc :=
  let removals := plain_sedimentation_removals in
  step new_concentrations <- dict_copy concentrations;
  step_ for_items removals (fun param removal =>
          imul new_concentrations param (minus (literal 1) (literal removal)));
  ret new_concentrations.

Definition coagulation_tank (self : simulation) (concentrations : loc) : M loc :=
  let removals := coagulation_tank_removals in
  step new_concentrations <- dict_copy concentrations;
  step_ for_items removals (fun param removal =>
          imul new_concentrations param (minus (literal 1) (literal removal)));
  ret new_concentrations.

Definition flocculation_chamber (self : simulation) (concentrations : loc) : M loc :=
  let removals := flocculation_chamber_removals in
  step new_concentrations <- dict_copy concentrations;
  step_ for_items removals (fun param removal =>
          imul new_concentrations param (minus (literal 1) (literal removal)));
  ret new_concentrations.

Definition sedimentation (self : simulation) (concentrations : loc) : M loc :=
  let removals := sedimentation_removals in
  step new_concentrations <- dict_copy concentrations;
  step_ for_items removals (fun param removal =>
          imul new_concentrations param (minus (literal 1) (literal removal)));
  ret new_concentrations.

Definition rapid_sand_filter (self : simulation) (concentrations : loc) : M loc :=
  let removals := rapid_sand_filter_removals in
  step new_concentrations <- dict_copy concentrations;
  step_ for_items removals (fun param removal =>
          imul new_concentrations param (minus (literal 1) (literal removal)));
  ret new_concentrations.

Definition _adjust_pH (current_pH : N) : N :=
  if less current_pH (literal 7) then py_min (times current_pH (literal 1.1)) (literal 7.0)
  else if less (literal 8) current_pH then py_max (times current_pH (literal 0.95)) (literal 7.5)
  else current_pH.

Definition electrocoagulation (self : simulation) (concentrations : loc) : M loc :=
  let removals :=
    if (plan self =? 1)%Z then electrocoagulation_plan1_removals
    else electrocoagulation_plan2_removals in
  step new_concentrations <- dict_copy concentrations;
  step_ for_items removals (fun param removal =>
          imul new_concentrations param (minus (literal 1) (literal removal)));
  step current_pH <- getitem concentrations "pH";
  step_ setitem new_concentrations "pH" (_adjust_pH current_pH);
  ret new_concentrations.

Definition call (self : simulation) (f : unit_function) : loc -> M loc :=
  match f with
  | FineScreen => fine_screen self
  | PlainSedimentation => plain_sedimentation self
  | CoagulationTank => coagulation_tank self
  | FlocculationChamber => flocculation_chamber self
  | Sedimentation => sedimentation self
  | Electrocoagulation => electrocoagulation self
  | RapidSandFilter => rapid_sand_filter self
  end.

Fixpoint run_units (units : list treatment_unit) (self : simulation)
    (current_concentrations : loc) : M simulation :=
  match units with
  | [] => ret self
  | unit :: rest =>
      step current_concentrations <- call self (function unit) current_concentrations;
      step snapshot <- dict_copy current_concentrations;
      run_units rest (append_history self (name unit, snapshot)) current_concentrations
  end.

Definition run_simulation (self : simulation) : M (simulation * history) :=
  step current_concentrations <- dict_copy (raw_wastewater self);
  step snapshot <- dict_copy current_concentrations;
  let self := set_history self [("Raw Wastewater", snapshot)] in
  step self <- run_units (treatment_units self) self current_concentrations;
  ret (self, concentration_history self).

Definition meets_limit (lim : limit) (value : N) : bool :=
  match lim with
  | Range lo hi => at_most (literal lo) value && at_most value (literal hi)
  | Scalar L => at_most value (literal L)
  end.

Fixpoint compliance_loop (limits : dict limit) (items : dict N)
    (compliance : dict (N * bool)) : dict (N * bool) :=
  match items with
  | [] => compliance
  | (param, value) :: rest =>
      if String.eqb param "pH" then
        compliance_loop limits rest (dict_set param (value, true) compliance)
      else if negb (dict_mem param limits) then
        compliance_loop limits rest compliance
      else
        match dict_get param limits with
        | Some lim =>
            compliance_loop limits rest
              (dict_set param (value, meets_limit lim value) compliance)
        | None => compliance_loop limits rest compliance
        end
  end.

Definition last_entry (hist : history) : M (string * loc) :=
  match last hist with
  | Some e => ret e
  | None => raise IndexError
  end.

Definition evaluate_compliance (self : simulation) : M (simulation * dict (N * bool)) :=
  step self <- match concentration_history self with
               | [] => step r <- run_simulation self; ret (fst r)
               | _ :: _ => ret self
               end;
  step entry <- last_entry (concentration_history self);
  let final_effluent := snd entry in
  step items <- dict_items final_effluent;
  ret (self, compliance_loop (effluent_limits self) items []).

(** The stage transform, and what the stage methods, a run and the history
    compute on values; as [apply_removals], [attenuate], [stage_value],
    [run_value], [history_value] and [final_value] above. *)

Definition apply_removals (removals : dict Q) (concentrations : loc) : M loc :=
  step new_concentrations <- dict_copy concentrations;
  step_ for_items removals (fun param removal =>
          imul new_concentrations param (minus (literal 1) (literal removal)));
  ret new_concentrations.

Fixpoint attenuate (removals : dict Q) (d : dict N) : dict N :=
  match removals with
  | [] => d
  | (param, removal) :: rest =>
      attenuate rest
        (match dict_get param d with
         | Some v => dict_set param (times v (minus (literal 1) (literal removal))) d
         | None => d
         end)
  end.

Definition stage_value (plan : Z) (f : unit_function) (d : dict N) : dict N :=
  let new := attenuate (removals_of plan f) d in
  match f with
  | Electrocoagulation =>
      match dict_get "pH" d with
      | Some v => dict_set "pH" (_adjust_pH v) new
      | None => new
      end
  | _ => new
  end.

Fixpoint run_value (plan : Z) (units : list treatment_unit) (prev : dict N)
    : list (string * dict N) :=
  match units with
  | [] => []
  | unit :: rest =>
      let next := stage_value plan (function unit) prev in
      (name unit, next) :: run_value plan rest next
  end.

Definition history_value (plan : Z) (units : list treatment_unit) (raw : dict N)
    : list (string * dict N) :=
  ("Raw Wastewater", raw) :: run_value plan units raw.

Definition final_value (plan : Z) (units : list treatment_unit) (raw : dict N) : dict N :=
  fold_left (fun d unit => stage_value plan (function unit) d) units raw.

Definition store_of (entries : list (string * dict N)) : list (dict N) :=
  flat_map (fun e => [snd e; snd e]) entries.

Definition resolve (h : list (dict N)) (hist : history)
    : list (string * option (dict N)) :=
  map (fun e => (fst e, h !! snd e)) hist.

(** The raw vector the constructor stores. *)
Definition raw_vector (plan : Z) : dict N :=
  map (fun kv => (fst kv, literal (snd kv))) (raw_wastewater_literal plan).

End Program.
End Generic.

(** The reading used above: rationals, nothing rounded. *)
#[export] Instance exact : arithmetic Q := {
  literal q := q;
  times := Qmult;
  minus := Qminus;
  less := Qltb;
  at_most := Qle_bool
}.

(** A decimal literal of the source denotes the double nearest to it; the
    correctly rounded quotient of its numerator and denominator, both exact
    doubles here, is that double. *)
Definition literal64 (q : Q) : PrimFloat.float :=
  PrimFloat.div (PrimFloat.of_uint63 (Uint63.of_Z (Qnum q)))
                (PrimFloat.of_uint63 (Uint63.of_Z (Zpos (Qden q)))).

(** Python's float arithmetic: IEEE 754 binary64, round to nearest even. *)
#[export] Instance binary64 : arithmetic PrimFloat.float := {
  literal := literal64;
  times := PrimFloat.mul;
  minus := PrimFloat.sub;
  less := PrimFloat.ltb;
  at_most := PrimFloat.leb
}.

(** The rational a finite double stands for. *)
Definition Q_of_float (f : PrimFloat.float) : option Q :=
  match FloatOps.Prim2SF f with
  | SpecFloat.S754_zero _ => Some 0
  | SpecFloat.S754_finite s m e =>
      Some (inject_Z (if s then Zneg m else Zpos m) * Qpower 2 e)
  | _ => None
  end.

(** * Properties *)

(** ** Numbers *)

Lemma Qltb_lt (a b : Q) : Qltb a b = true <-> a < b.
Proof.
  unfold Qltb. rewrite negb_true_iff. split.
  - intros H. apply Qnot_le_lt. intros Hle.
    apply Qle_bool_iff in Hle. congruence.
  - intros H. destruct (Qle_bool b a) eqn:E; [|reflexivity].
    apply Qle_bool_iff in E. exfalso. apply (Qlt_not_le _ _ H E).
Qed.

Lemma Qltb_ge (a b : Q) : Qltb a b = false <-> b <= a.
Proof.
  unfold Qltb. rewrite negb_false_iff. apply Qle_bool_iff.
Qed.

Lemma py_min_le_r (a b : Q) : py_min a b <= b.
Proof.
  unfold py_min. destruct (Qltb b a) eqn:E.
  - apply Qle_refl.
  - apply Qltb_ge in E. exact E.
Qed.

Lemma py_max_ge_r (a b : Q) : b <= py_max a b.
Proof.
  unfold py_max. destruct (Qltb a b) eqn:E.
  - apply Qle_refl.
  - apply Qltb_ge in E. exact E.
Qed.

Lemma py_min_Qmin (a b : Q) : py_min a b == Qmin a b.
Proof.
  unfold py_min. destruct (Qltb b a) eqn:E.
  - apply Qltb_lt in E. symmetry. apply Q.min_r. apply Qlt_le_weak, E.
  - apply Qltb_ge in E. symmetry. apply Q.min_l. exact E.
Qed.

Lemma py_max_Qmax (a b : Q) : py_max a b == Qmax a b.
Proof.
  unfold py_max. destruct (Qltb a b) eqn:E.
  - apply Qltb_lt in E. symmetry. apply Q.max_r. apply Qlt_le_weak, E.
  - apply Qltb_ge in E. symmetry. apply Q.max_l. exact E.
Qed.

(** ** Dictionaries *)

Section Dictionaries.
Context {V : Type}.
Implicit Types (d : dict V) (k : string) (v : V).

Lemma dict_get_set_eq k v d : dict_get k (dict_set k v d) = Some v.
Proof.
  induction d as [|[k' v'] d IH]; simpl.
  - now rewrite String.eqb_refl.
  - destruct (String.eqb k k') eqn:E; simpl; rewrite E; auto.
Qed.

Lemma dict_get_set_ne k k' v d :
  k <> k' -> dict_get k' (dict_set k v d) = dict_get k' d.
Proof.
  intros Hne. induction d as [|[k0 v0] d IH]; simpl.
  - destruct (String.eqb k' k) eqn:E; [|reflexivity].
    apply String.eqb_eq in E. congruence.
  - destruct (String.eqb k k0) eqn:E; simpl.
    + apply String.eqb_eq in E. subst k0.
      destruct (String.eqb k' k) eqn:E'; [|reflexivity].
      apply String.eqb_eq in E'. congruence.
    + now rewrite IH.
Qed.

Lemma keys_set_present k v d :
  dict_mem k d = true -> keys (dict_set k v d) = keys d.
Proof.
  unfold dict_mem, keys. induction d as [|[k' v'] d IH]; simpl.
  - discriminate.
  - destruct (String.eqb k k') eqn:E; simpl; [reflexivity|].
    intros H. now rewrite IH.
Qed.

Lemma dict_mem_keys k d : dict_mem k d = mem k (keys d).
Proof.
  unfold dict_mem, mem, keys. induction d as [|[k' v'] d IH]; simpl.
  - reflexivity.
  - destruct (String.eqb k k'); simpl; auto.
Qed.

Lemma dict_get_Some_mem k v d : dict_get k d = Some v -> dict_mem k d = true.
Proof. unfold dict_mem. now intros ->. Qed.

Lemma dict_get_None_mem k d : dict_get k d = None <-> dict_mem k d = false.
Proof. unfold dict_mem. destruct (dict_get k d); split; congruence. Qed.

Lemma covers_spec d ks :
  covers d ks = true <-> (forall k, In k ks -> dict_mem k d = true).
Proof. unfold covers. apply forallb_forall. Qed.

Lemma covers_keys d d' ks : keys d = keys d' -> covers d ks = covers d' ks.
Proof.
  intros Hk. unfold covers.
  induction ks as [|k ks IH]; simpl; [reflexivity|].
  now rewrite IH, !dict_mem_keys, Hk.
Qed.
End Dictionaries.

(** ** The stage transform on values *)

Lemma keys_attenuate (removals d : dict Q) : keys (attenuate removals d) = keys d.
Proof.
  revert d. induction removals as [|[p r] rest IH]; intros d; simpl.
  - reflexivity.
  - rewrite IH. destruct (dict_get p d) eqn:E; [|reflexivity].
    apply keys_set_present. eapply dict_get_Some_mem, E.
Qed.

Lemma attenuate_get_absent (removals d : dict Q) (p : string) :
  dict_get p removals = None ->
  dict_get p (attenuate removals d) = dict_get p d.
Proof.
  revert d. induction removals as [|[q r] rest IH]; intros d; simpl.
  - reflexivity.
  - destruct (String.eqb p q) eqn:E; [discriminate|].
    intros Hrest. rewrite (IH _ Hrest).
    destruct (dict_get q d); [|reflexivity].
    apply dict_get_set_ne. intros ->. now rewrite String.eqb_refl in E.
Qed.

Lemma mem_false_get {V} (p : string) (d : dict V) :
  mem p (keys d) = false -> dict_get p d = None.
Proof. rewrite <- dict_mem_keys. apply dict_get_None_mem. Qed.

Lemma attenuate_get_present (removals d : dict Q) (p : string) (r v : Q) :
  distinct (keys removals) = true ->
  dict_get p removals = Some r ->
  dict_get p d = Some v ->
  dict_get p (attenuate removals d) = Some (v * (1 - r)).
Proof.
  revert d. induction removals as [|[q r'] rest IH]; intros d; simpl.
  - discriminate.
  - rewrite andb_true_iff, negb_true_iff. intros [Hq Hrest].
    destruct (String.eqb p q) eqn:E.
    + apply String.eqb_eq in E. subst q. intros [= ->] Hd. rewrite Hd.
      rewrite attenuate_get_absent by now apply mem_false_get.
      apply dict_get_set_eq.
    + intros Hr Hd. apply IH; [exact Hrest|exact Hr|].
      destruct (dict_get q d); [|exact Hd].
      rewrite dict_get_set_ne; [exact Hd|].
      intros ->. now rewrite String.eqb_refl in E.
Qed.

Lemma keys_stage_value (plan : Z) (f : unit_function) (d : dict Q) :
  keys (stage_value plan f d) = keys d.
Proof.
  unfold stage_value.
  destruct f; try apply keys_attenuate.
  destruct (dict_get "pH" d) eqn:E; [|apply keys_attenuate].
  rewrite keys_set_present; [apply keys_attenuate|].
  rewrite dict_mem_keys, keys_attenuate, <- dict_mem_keys.
  eapply dict_get_Some_mem, E.
Qed.

(** ** The stage transform in the store *)

Lemma bind_Ok {A B} (m : M A) (k : A -> M B) (h h' : heap) (a : A) :
  m h = Ok (a, h') -> bind m k h = k a h'.
Proof. unfold bind. now intros ->. Qed.

Lemma imul_spec (l : loc) (k : string) (x v : Q) (h : heap) (d : dict Q) :
  h !! l = Some d -> dict_get k d = Some v ->
  imul l k x h = Ok (tt, <[l := dict_set k (v * x) d]> h).
Proof.
  intros Hl Hk. unfold imul, bind, getitem, setitem. now rewrite Hl, Hk, Hl.
Qed.

Lemma loop_spec (removals : dict Q) (l : loc) (h : heap) (d : dict Q) :
  h !! l = Some d ->
  covers d (keys removals) = true ->
  for_items removals (fun param removal => imul l param (1 - removal)) h
  = Ok (tt, <[l := attenuate removals d]> h).
Proof.
  revert h d. induction removals as [|[p r] rest IH]; intros h d Hl Hc; simpl.
  - unfold ret. now rewrite list_insert_id.
  - simpl in Hc. apply andb_true_iff in Hc as [Hp Hc].
    unfold dict_mem in Hp. destruct (dict_get p d) as [v|] eqn:Hv; [|discriminate].
    rewrite (bind_Ok _ _ _ _ _ (imul_spec l p (1 - r) v h d Hl Hv)).
    rewrite (IH _ (dict_set p (v * (1 - r)) d)).
    + now rewrite list_insert_insert_eq.
    + apply list_lookup_insert_eq. eapply lookup_lt_Some, Hl.
    + rewrite (covers_keys _ d); [exact Hc|].
      apply keys_set_present. eapply dict_get_Some_mem, Hv.
Qed.

Lemma insert_new_slot (h : heap) (d d' : dict Q) :
  <[List.length h := d']> (h ++ [d]) = h ++ [d'].
Proof.
  rewrite insert_app_r_alt by lia. now rewrite Nat.sub_diag.
Qed.

Lemma lookup_new_slot (h : heap) (d : dict Q) :
  (h ++ [d]) !! List.length h = Some d.
Proof. rewrite lookup_app_r by lia. now rewrite Nat.sub_diag. Qed.

Lemma apply_removals_spec (removals : dict Q) (l : loc) (h : heap) (d : dict Q) :
  h !! l = Some d ->
  covers d (keys removals) = true ->
  apply_removals removals l h = Ok (List.length h, h ++ [attenuate removals d]).
Proof.
  intros Hl Hc. unfold apply_removals.
  unfold bind at 1. unfold dict_copy. rewrite Hl.
  erewrite bind_Ok by (apply loop_spec; [apply lookup_new_slot|exact Hc]).
  unfold ret. now rewrite insert_new_slot.
Qed.

Lemma mem_In (k : string) (ks : list string) : mem k ks = true <-> In k ks.
Proof.
  unfold mem. rewrite existsb_exists. split.
  - intros [x [Hx E]]. apply String.eqb_eq in E. now subst.
  - intros H. exists k. split; [exact H|apply String.eqb_refl].
Qed.

Lemma covers_sub {V} (d : dict V) (ks ks' : list string) :
  covers d ks = true ->
  forallb (fun k => mem k ks) ks' = true ->
  covers d ks' = true.
Proof.
  rewrite !covers_spec, forallb_forall. intros H Hsub k Hk.
  apply H, mem_In, Hsub, Hk.
Qed.

Lemma removals_tracked (plan : Z) (f : unit_function) :
  forallb (fun k => mem k parameters) (keys (removals_of plan f)) = true.
Proof. destruct f; try reflexivity. simpl. now destruct (plan =? 1)%Z. Qed.

Lemma removals_distinct (plan : Z) (f : unit_function) :
  distinct (keys (removals_of plan f)) = true.
Proof. destruct f; try reflexivity. simpl. now destruct (plan =? 1)%Z. Qed.

Lemma removals_fractions (plan : Z) (f : unit_function) :
  forallb (fun kv => Qle_bool 0 (snd kv) && Qle_bool (snd kv) 1)
          (removals_of plan f) = true.
Proof. destruct f; try reflexivity. simpl. now destruct (plan =? 1)%Z. Qed.

Lemma removals_no_pH (plan : Z) (f : unit_function) :
  dict_get "pH" (removals_of plan f) = None.
Proof. destruct f; try reflexivity. simpl. now destruct (plan =? 1)%Z. Qed.

Lemma removals_profile (plan : Z) (f : unit_function) :
  is_profile (removals_of plan f) = true.
Proof. destruct f; try reflexivity. simpl. now destruct (plan =? 1)%Z. Qed.

(** Each plain stage method is the stage transform at its own table. *)
Lemma plain_stage_transform (self : simulation) (f : unit_function) :
  plain_stage f = true ->
  call self f = apply_removals (removals_of (plan self) f).
Proof. destruct f; try reflexivity. discriminate. Qed.

Lemma electrocoagulation_spec (self : simulation) (l : loc) (h : heap) (d : dict Q) :
  h !! l = Some d ->
  covers d parameters = true ->
  electrocoagulation self l h
  = Ok (List.length h, h ++ [stage_value (plan self) Electrocoagulation d]).
Proof.
  intros Hl Hc.
  assert (HpH : dict_mem "pH" d = true).
  { apply (proj1 (covers_spec d parameters) Hc). simpl. now left. }
  unfold dict_mem in HpH. destruct (dict_get "pH" d) as [v|] eqn:Hv; [|discriminate].
  unfold electrocoagulation, stage_value. rewrite Hv.
  change (if (plan self =? 1)%Z then electrocoagulation_plan1_removals
          else electrocoagulation_plan2_removals)
    with (removals_of (plan self) Electrocoagulation).
  set (removals := removals_of (plan self) Electrocoagulation).
  unfold bind at 1. unfold dict_copy. rewrite Hl.
  erewrite bind_Ok.
  2:{ apply loop_spec; [apply lookup_new_slot|].
      eapply covers_sub; [exact Hc|apply removals_tracked]. }
  rewrite insert_new_slot.
  unfold bind, getitem, setitem, ret.
  rewrite lookup_app_l by (eapply lookup_lt_Some, Hl).
  rewrite Hl, Hv, lookup_new_slot. now rewrite insert_new_slot.
Qed.

(** Every stage method succeeds on a vector with all tracked parameters: it
    allocates one new dictionary, holding [stage_value] of its input. *)
Lemma call_spec (self : simulation) (f : unit_function) (l : loc) (h : heap) (d : dict Q) :
  h !! l = Some d ->
  covers d parameters = true ->
  call self f l h = Ok (List.length h, h ++ [stage_value (plan self) f d]).
Proof.
  intros Hl Hc.
  destruct (plain_stage f) eqn:Hf.
  - rewrite plain_stage_transform by exact Hf.
    rewrite (apply_removals_spec _ _ _ d Hl).
    + now destruct f.
    + eapply covers_sub; [exact Hc|apply removals_tracked].
  - destruct f; try discriminate. now apply electrocoagulation_spec.
Qed.

(** ** Running the pipeline *)

Lemma covers_stage_value (plan : Z) (f : unit_function) (d : dict Q) (ks : list string) :
  covers (stage_value plan f d) ks = covers d ks.
Proof. apply covers_keys, keys_stage_value. Qed.

Lemma names_run_value (plan : Z) (units : list treatment_unit) (d : dict Q) :
  map fst (run_value plan units d) = map name units.
Proof.
  revert d. induction units as [|u rest IH]; intros d; simpl; [reflexivity|].
  now rewrite IH.
Qed.

Lemma length_snapshot_locs (n : nat) (names : list string) :
  List.length (snapshot_locs n names) = List.length names.
Proof.
  revert n. induction names as [|nm rest IH]; intros n; simpl; [reflexivity|].
  now rewrite IH.
Qed.

Lemma run_units_spec (units : list treatment_unit) (self : simulation)
    (cur : loc) (h : heap) (d : dict Q) :
  h !! cur = Some d ->
  covers d parameters = true ->
  run_units units self cur h
  = Ok (set_history self
          (concentration_history self
             ++ snapshot_locs (List.length h) (map name units)),
        h ++ store_of (run_value (plan self) units d)).
Proof.
  revert self cur h d.
  induction units as [|u rest IH]; intros self cur h d Hl Hc; simpl.
  - unfold ret. rewrite !app_nil_r. now destruct self.
  - rewrite (bind_Ok _ _ _ _ _ (call_spec self (function u) cur h d Hl Hc)).
    set (d' := stage_value (plan self) (function u) d).
    unfold bind at 1. unfold dict_copy. rewrite lookup_new_slot.
    rewrite (IH _ _ _ d').
    + rewrite !length_app. simpl.
      replace (List.length h + 1 + 1)%nat with (S (S (List.length h))) by lia.
      replace (List.length h + 1)%nat with (S (List.length h)) by lia.
      unfold append_history, set_history. simpl.
      now rewrite <- !app_assoc.
    + rewrite lookup_app_l by (rewrite length_app; simpl; lia).
      apply lookup_new_slot.
    + unfold d'. now rewrite covers_stage_value.
Qed.

Lemma run_simulation_spec (self : simulation) (h : heap) (raw : dict Q) :
  h !! raw_wastewater self = Some raw ->
  covers raw parameters = true ->
  let hist := ("Raw Wastewater", S (List.length h))
              :: snapshot_locs (S (S (List.length h)))
                   (map name (treatment_units self)) in
  run_simulation self h
  = Ok ((set_history self hist, hist),
        h ++ raw :: raw
          :: store_of (run_value (plan self) (treatment_units self) raw)).
Proof.
  intros Hl Hc hist. unfold run_simulation.
  unfold bind at 1. unfold dict_copy at 1. rewrite Hl.
  unfold bind at 1. unfold dict_copy at 1. rewrite lookup_new_slot.
  erewrite bind_Ok.
  2:{ apply (run_units_spec _ _ _ _ raw); [|exact Hc].
      rewrite lookup_app_l by (rewrite length_app; simpl; lia).
      apply lookup_new_slot. }
  unfold ret. simpl. rewrite !length_app. simpl.
  replace (List.length h + 1 + 1)%nat with (S (S (List.length h))) by lia.
  replace (List.length h + 1)%nat with (S (List.length h)) by lia.
  now rewrite <- !app_assoc.
Qed.

(** Reading the recorded snapshots back from the store. *)
Lemma resolve_snapshots (h0 : heap) (entries : list (string * dict Q)) (ext : heap) :
  resolve (h0 ++ store_of entries ++ ext)
          (snapshot_locs (List.length h0) (map fst entries))
  = map (fun e => (fst e, Some (snd e))) entries.
Proof.
  revert h0. induction entries as [|[nm d] rest IH]; intros h0; simpl.
  - reflexivity.
  - f_equal.
    + f_equal. rewrite lookup_app_r by lia.
      replace (S (List.length h0) - List.length h0)%nat with 1%nat by lia.
      reflexivity.
    + specialize (IH (h0 ++ [d; d])).
      rewrite length_app in IH. simpl in IH.
      replace (List.length h0 + 2)%nat with (S (S (List.length h0))) in IH by lia.
      rewrite <- IH. f_equal. now rewrite <- app_assoc.
Qed.

Lemma last_history_value (plan : Z) (units : list treatment_unit) (d : dict Q) :
  option_map snd (last (history_value plan units d))
  = Some (final_value plan units d).
Proof.
  unfold history_value, final_value.
  generalize "Raw Wastewater" as nm.
  revert d. induction units as [|u rest IH]; intros d nm.
  - reflexivity.
  - change (run_value plan (u :: rest) d)
      with ((name u, stage_value plan (function u) d)
              :: run_value plan rest (stage_value plan (function u) d)).
    rewrite last_cons_cons. apply IH.
Qed.

Lemma resolve_run_simulation (self : simulation) (h : heap) (raw : dict Q) :
  let hist := ("Raw Wastewater", S (List.length h))
              :: snapshot_locs (S (S (List.length h)))
                   (map name (treatment_units self)) in
  let h' := h ++ raw :: raw
              :: store_of (run_value (plan self) (treatment_units self) raw) in
  resolve h' hist
  = map (fun e => (fst e, Some (snd e)))
        (history_value (plan self) (treatment_units self) raw).
Proof.
  intros hist h'. unfold hist, h', history_value. simpl. f_equal.
  - f_equal. rewrite lookup_app_r by lia.
    replace (S (List.length h) - List.length h)%nat with 1%nat by lia.
    reflexivity.
  - pose proof (resolve_snapshots (h ++ [raw; raw])
                  (run_value (plan self) (treatment_units self) raw) []) as R.
    rewrite length_app, app_nil_r, names_run_value in R. simpl in R.
    replace (List.length h + 2)%nat with (S (S (List.length h))) in R by lia.
    rewrite <- R. f_equal. now rewrite <- app_assoc.
Qed.

Lemma last_map {A B} (g : A -> B) (l : list A) :
  last (map g l) = option_map g (last l).
Proof.
  induction l as [|a [|b l] IH]; try reflexivity.
  change (map g (a :: b :: l)) with (g a :: g b :: map g l).
  rewrite !last_cons_cons. exact IH.
Qed.

(** After a run, the last history entry points at the final vector. *)
Lemma last_resolved (h : heap) (hist : history) (entries : list (string * dict Q))
    (final : dict Q) :
  resolve h hist = map (fun e => (fst e, Some (snd e))) entries ->
  option_map snd (last entries) = Some final ->
  exists nm l, last hist = Some (nm, l) /\ h !! l = Some final.
Proof.
  intros R L. apply (f_equal last) in R. unfold resolve in R.
  rewrite !last_map in R.
  destruct (last entries) as [[nm' d]|]; [|discriminate].
  simpl in L. injection L as ->.
  destruct (last hist) as [[nm l]|]; [|discriminate].
  simpl in R. injection R as _ R. now exists nm, l.
Qed.

(** ** Compliance *)

Lemma compliance_loop_get (limits : dict limit) (items : dict Q)
    (acc : compliance_record) (p : string) :
  distinct (keys items) = true ->
  dict_get p (compliance_loop limits items acc)
  = match dict_get p items with
    | Some v => match compliance_entry limits p v with
                | Some e => Some e
                | None => dict_get p acc
                end
    | None => dict_get p acc
    end.
Proof.
  revert acc. induction items as [|[q v] rest IH]; intros acc; simpl.
  - reflexivity.
  - rewrite andb_true_iff, negb_true_iff. intros [Hq Hrest].
    assert (Hskip : forall acc', p = q ->
              dict_get p (compliance_loop limits rest acc') = dict_get p acc').
    { intros acc' <-. rewrite IH by exact Hrest.
      now rewrite (mem_false_get _ _ Hq). }
    assert (Hother : forall e, p <> q ->
              dict_get p (dict_set q e acc) = dict_get p acc).
    { intros e Hne. apply dict_get_set_ne. congruence. }
    unfold compliance_entry.
    destruct (String.eqb q "pH") eqn:EpH.
    + destruct (String.eqb_spec p q) as [E|E].
      * rewrite Hskip by exact E. subst q.
        rewrite EpH. apply dict_get_set_eq.
      * rewrite IH by exact Hrest. unfold compliance_entry.
        now rewrite Hother.
    + unfold dict_mem. destruct (dict_get q limits) as [lim|] eqn:El; simpl.
      * destruct (String.eqb_spec p q) as [E|E].
        -- rewrite Hskip by exact E. subst q.
           rewrite EpH, El. apply dict_get_set_eq.
        -- rewrite IH by exact Hrest. unfold compliance_entry.
           now rewrite Hother.
      * destruct (String.eqb_spec p q) as [E|E].
        -- rewrite Hskip by exact E. subst q.
           now rewrite EpH, El.
        -- rewrite IH by exact Hrest. reflexivity.
Qed.

(** With a history present, the evaluator reads the final vector and
    touches neither the object nor the store. *)
Lemma evaluate_present (self : simulation) (h : heap) (nm : string) (l : loc)
    (final : dict Q) :
  last (concentration_history self) = Some (nm, l) ->
  h !! l = Some final ->
  evaluate_compliance self h
  = Ok ((self, compliance_loop (effluent_limits self) final []), h).
Proof.
  intros Hlast Hl. unfold evaluate_compliance.
  destruct (concentration_history self) as [|e hist] eqn:Eh; [discriminate|].
  unfold bind at 1. unfold ret at 1. rewrite Eh.
  unfold bind, last_entry. rewrite Hlast. unfold ret, dict_items. simpl.
  now rewrite Hl.
Qed.

(** Without a history, the evaluator is one run followed by the reading of
    the final vector, which the last history entry points at. *)
Lemma evaluate_fresh (self : simulation) (h : heap) (raw : dict Q) :
  concentration_history self = [] ->
  h !! raw_wastewater self = Some raw ->
  covers raw parameters = true ->
  exists hist' h' nm l,
    run_simulation self h = Ok ((set_history self hist', hist'), h')
    /\ last hist' = Some (nm, l)
    /\ h' !! l = Some (final_value (plan self) (treatment_units self) raw)
    /\ evaluate_compliance self h
       = Ok ((set_history self hist',
              compliance_loop (effluent_limits self)
                (final_value (plan self) (treatment_units self) raw) []), h')
    /\ evaluate_compliance (set_history self hist') h'
       = Ok ((set_history self hist',
              compliance_loop (effluent_limits self)
                (final_value (plan self) (treatment_units self) raw) []), h').
Proof.
  intros Hempty Hl Hc.
  pose proof (run_simulation_spec self h raw Hl Hc) as Hrun.
  pose proof (resolve_run_simulation self h raw) as Hres.
  cbv zeta in Hrun, Hres.
  set (hist := ("Raw Wastewater", S (List.length h))
               :: snapshot_locs (S (S (List.length h)))
                    (map name (treatment_units self))) in *.
  set (h' := h ++ raw :: raw
               :: store_of (run_value (plan self) (treatment_units self) raw)) in *.
  destruct (last_resolved _ _ _ _ Hres (last_history_value _ _ _))
    as (nm & l & Hlast & Hfinal).
  assert (Hsecond : evaluate_compliance (set_history self hist) h'
            = Ok ((set_history self hist,
                   compliance_loop (effluent_limits self)
                     (final_value (plan self) (treatment_units self) raw) []), h')).
  { apply (evaluate_present (set_history self hist) h' nm l); assumption. }
  exists hist, h', nm, l.
  repeat split; try assumption.
  unfold evaluate_compliance. rewrite Hempty.
  unfold bind at 1. unfold bind at 1. rewrite Hrun. unfold ret at 1. simpl.
  unfold evaluate_compliance in Hsecond. simpl in Hsecond.
  unfold bind at 1 in Hsecond. unfold ret at 1 in Hsecond. exact Hsecond.
Qed.

(** ** Bounds on the stage transform *)

Lemma forallb_get {V} (P : string * V -> bool) (d : dict V) (k : string) (v : V) :
  forallb P d = true -> dict_get k d = Some v -> P (k, v) = true.
Proof.
  induction d as [|[k' v'] d IH]; simpl; [discriminate|].
  rewrite andb_true_iff. intros [Hhd Htl].
  destruct (String.eqb_spec k k') as [->|_].
  - now intros [= <-].
  - now apply IH.
Qed.

Lemma fraction_bounds (removals : dict Q) (p : string) (r : Q) :
  forallb (fun kv => Qle_bool 0 (snd kv) && Qle_bool (snd kv) 1) removals = true ->
  dict_get p removals = Some r ->
  0 <= r /\ r <= 1.
Proof.
  intros Hall Hp. pose proof (forallb_get _ _ _ _ Hall Hp) as H. simpl in H.
  apply andb_true_iff in H as [H0 H1].
  split; now apply Qle_bool_iff.
Qed.

Lemma nonnegative_get (d : dict Q) (p : string) (v : Q) :
  nonnegative d = true -> dict_get p d = Some v -> 0 <= v.
Proof.
  intros Hall Hp. pose proof (forallb_get _ _ _ _ Hall Hp) as H.
  now apply Qle_bool_iff.
Qed.

Lemma scaled_bounds (v r : Q) :
  0 <= v -> 0 <= r -> r <= 1 -> 0 <= v * (1 - r) /\ v * (1 - r) <= v.
Proof. intros Hv Hr0 Hr1. split; nra. Qed.

(** What the transform does to one parameter. *)
Lemma attenuate_get (removals d : dict Q) (p : string) (v : Q) :
  distinct (keys removals) = true ->
  dict_get p d = Some v ->
  dict_get p (attenuate removals d)
  = Some (match dict_get p removals with
          | Some r => v * (1 - r)
          | None => v
          end).
Proof.
  intros Hd Hv. destruct (dict_get p removals) as [r|] eqn:Hr.
  - now apply attenuate_get_present.
  - now rewrite attenuate_get_absent.
Qed.

Lemma attenuate_le (removals d : dict Q) (p : string) (v : Q) :
  distinct (keys removals) = true ->
  forallb (fun kv => Qle_bool 0 (snd kv) && Qle_bool (snd kv) 1) removals = true ->
  dict_get p d = Some v ->
  0 <= v ->
  exists v', dict_get p (attenuate removals d) = Some v' /\ 0 <= v' /\ v' <= v.
Proof.
  intros Hd Hf Hv Hpos. rewrite (attenuate_get _ _ _ v Hd Hv).
  eexists. split; [reflexivity|].
  destruct (dict_get p removals) as [r|] eqn:Hr.
  - destruct (fraction_bounds _ _ _ Hf Hr). now apply scaled_bounds.
  - split; [exact Hpos|apply Qle_refl].
Qed.

(** ** Construction *)

Lemma init_spec (p : Z) (h : heap) :
  __init__ p h
  = Ok ({| plan := p;
           flow_rate := 200;
           hourly_flow := 200 / 24;
           raw_wastewater := List.length h;
           effluent_limits := effluent_limits_literal;
           treatment_units := _initialize_treatment_units p;
           concentration_history := [] |},
        h ++ [raw_wastewater_literal p]).
Proof. reflexivity. Qed.

(** Any selector other than 1 selects what 2 selects. *)
Lemma units_selected (p : Z) :
  _initialize_treatment_units p = _initialize_treatment_units (selected p).
Proof. unfold selected, _initialize_treatment_units. now destruct (p =? 1)%Z. Qed.

Lemma raw_selected (p : Z) :
  raw_wastewater_literal p = raw_wastewater_literal (selected p).
Proof. unfold selected, raw_wastewater_literal. now destruct (p =? 1)%Z. Qed.

Lemma stage_value_selected (p : Z) (f : unit_function) (d : dict Q) :
  stage_value p f d = stage_value (selected p) f d.
Proof.
  unfold stage_value, removals_of, selected.
  destruct f; try reflexivity. now destruct (p =? 1)%Z.
Qed.

Lemma final_value_selected (p : Z) (units : list treatment_unit) (d : dict Q) :
  final_value p units d = final_value (selected p) units d.
Proof.
  unfold final_value. revert d.
  induction units as [|u rest IH]; intros d; simpl; [reflexivity|].
  now rewrite IH, stage_value_selected.
Qed.

Lemma raw_covers (p : Z) : covers (raw_wastewater_literal p) parameters = true.
Proof. reflexivity. Qed.

(** ** Splitting a run *)

Lemma run_units_app (units1 units2 : list treatment_unit) (self : simulation)
    (cur : loc) (h : heap) (d : dict Q) :
  h !! cur = Some d ->
  covers d parameters = true ->
  exists self1 cur1 h1,
    run_units units1 self cur h = Ok (self1, h1)
    /\ h1 !! cur1 = Some (final_value (plan self) units1 d)
    /\ plan self1 = plan self
    /\ run_units (units1 ++ units2) self cur h = run_units units2 self1 cur1 h1.
Proof.
  revert self cur h d.
  induction units1 as [|u rest IH]; intros self cur h d Hl Hc.
  - exists self, cur, h. repeat split; assumption.
  - set (d' := stage_value (plan self) (function u) d).
    destruct (IH (append_history self (name u, S (List.length h)))
                 (List.length h) ((h ++ [d']) ++ [d']) d')
      as (self1 & cur1 & h1 & Hrun & Hcur & Hplan & Happ).
    { rewrite lookup_app_l by (rewrite length_app; simpl; lia).
      apply lookup_new_slot. }
    { unfold d'. now rewrite covers_stage_value. }
    exists self1, cur1, h1.
    assert (Hstep : forall units,
              run_units (u :: units) self cur h
              = run_units units (append_history self (name u, S (List.length h)))
                  (List.length h) ((h ++ [d']) ++ [d'])).
    { intros units. simpl.
      rewrite (bind_Ok _ _ _ _ _ (call_spec self (function u) cur h d Hl Hc)).
      fold d'. unfold bind at 1. unfold dict_copy. rewrite lookup_new_slot.
      rewrite length_app. simpl.
      now replace (List.length h + 1)%nat with (S (List.length h)) by lia. }
    repeat split.
    + now rewrite Hstep.
    + exact Hcur.
    + exact Hplan.
    + change ((u :: rest) ++ units2) with (u :: (rest ++ units2)).
      now rewrite Hstep.
Qed.

(** ** Evaluating a newly constructed object *)

Lemma evaluate_constructed (p : Z) (h : heap) :
  let raw := raw_wastewater_literal (selected p) in
  let final := final_value (selected p) (_initialize_treatment_units (selected p)) raw in
  exists s s' h' nm l,
    __init__ p h = Ok (s, h ++ [raw])
    /\ evaluate_compliance s (h ++ [raw])
       = Ok ((s', compliance_loop effluent_limits_literal final []), h')
    /\ effluent_limits s' = effluent_limits_literal
    /\ last (concentration_history s') = Some (nm, l)
    /\ h' !! l = Some final.
Proof.
  intros raw final.
  pose proof (init_spec p h) as Hinit.
  set (s := {| plan := p; flow_rate := 200; hourly_flow := 200 / 24;
               raw_wastewater := List.length h;
               effluent_limits := effluent_limits_literal;
               treatment_units := _initialize_treatment_units p;
               concentration_history := [] |}) in *.
  rewrite raw_selected in Hinit. fold raw in Hinit.
  destruct (evaluate_fresh s (h ++ [raw]) raw eq_refl (lookup_new_slot h raw)
              (raw_covers _))
    as (hist' & h' & nm & l & _ & Hlast & Hfinal & Heval & _).
  simpl in Heval, Hfinal.
  rewrite final_value_selected, units_selected in Heval, Hfinal.
  exists s, (set_history s hist'), h', nm, l.
  repeat split; assumption.
Qed.

(** * The claims *)

(** C1 (as stated, refuted): the selector 3 lies outside {1, 2}, yet
    construction does not fail: it returns an object carrying the six-stage
    pipeline of Plan 2. *)
Lemma invalid_plan_is_accepted :
  (3 <> 1)%Z /\ (3 <> 2)%Z
  /\ ~ (exists e, __init__ 3 [] = Raise e)
  /\ exists s h, __init__ 3 [] = Ok (s, h)
                 /\ List.length (treatment_units s) = 6%nat.
Proof.
  split; [lia|]. split; [lia|]. split.
  - intros [e He]. rewrite init_spec in He. discriminate.
  - eexists _, _. rewrite init_spec. split; reflexivity.
Qed.

(** C1 (amended): construction never fails, whatever the selector.  The
    selector is only compared with 1: selector 1 builds the four-stage
    pipeline and the Plan 1 raw vector, every other selector builds the
    six-stage pipeline and the Plan 2 raw vector.  The raw vector is the one
    new dictionary in the store and the stage history starts empty. *)
Theorem construction_is_total (p : Z) (h : heap) :
  exists s,
    __init__ p h = Ok (s, h ++ [raw_wastewater_literal (selected p)])
    /\ plan s = p
    /\ raw_wastewater s = List.length h
    /\ treatment_units s = _initialize_treatment_units (selected p)
    /\ List.length (treatment_units s) = (if (p =? 1)%Z then 4 else 6)%nat
    /\ concentration_history s = [].
Proof.
  eexists. rewrite init_spec, <- raw_selected, <- units_selected.
  repeat split. simpl. unfold _initialize_treatment_units.
  now destruct (p =? 1)%Z.
Qed.

(** C2 (as stated, refuted): the Fine Screen table has no entry for pH, and
    the Fine Screen applied to the Plan 1 raw vector returns pH 7.5, the
    value it was given. *)
Lemma fine_screen_keeps_pH :
  dict_get "pH" fine_screen_removals = None
  /\ exists s h l h' d,
       __init__ 1 [] = Ok (s, h)
       /\ getitem (raw_wastewater s) "pH" h = Ok (7.5, h)
       /\ fine_screen s (raw_wastewater s) h = Ok (l, h')
       /\ h' !! l = Some d
       /\ dict_get "pH" d = Some 7.5.
Proof.
  split; [reflexivity|].
  eexists _, _, _, _, _. repeat split.
Qed.

(** C2 (amended): no removal table lists pH, under either plan, and every
    stage other than electrocoagulation returns a vector whose pH is the pH
    of its input. *)
Theorem plain_stages_keep_pH (self : simulation) (f : unit_function)
    (l : loc) (h : heap) (d : dict Q) :
  plain_stage f = true ->
  h !! l = Some d ->
  covers d parameters = true ->
  (forall p g, dict_get "pH" (removals_of p g) = None)
  /\ exists out,
       call self f l h = Ok (List.length h, h ++ [out])
       /\ dict_get "pH" out = dict_get "pH" d.
Proof.
  intros Hf Hl Hc. split; [intros p g; apply removals_no_pH|].
  exists (stage_value (plan self) f d). split.
  - now apply call_spec.
  - destruct f; try discriminate; unfold stage_value;
      apply attenuate_get_absent, removals_no_pH.
Qed.

Lemma plain_stages_keep_pH_witness :
  (forall p g, dict_get "pH" (removals_of p g) = None)
  /\ exists out,
       call {| plan := 1; flow_rate := 200; hourly_flow := 200 / 24;
               raw_wastewater := 0%nat;
               effluent_limits := effluent_limits_literal;
               treatment_units := _initialize_treatment_units 1;
               concentration_history := [] |}
            PlainSedimentation 0%nat [raw_wastewater_literal 1]
       = Ok (1%nat, [raw_wastewater_literal 1] ++ [out])
       /\ dict_get "pH" out = dict_get "pH" (raw_wastewater_literal 1).
Proof.
  apply (plain_stages_keep_pH _ PlainSedimentation 0%nat
           [raw_wastewater_literal 1] (raw_wastewater_literal 1));
    reflexivity.
Defined.

(** C3: on a well-formed vector (distinct keys, every tracked parameter
    present, no negative value) and a removal profile (tracked parameters
    mapped to fractions in [0, 1]), the stage transform raises no error and
    returns a new vector [out] with [out[p] = in[p] * (1 - profile.get(p, 0))]
    for every parameter, with the keys of [in] in the same order, and with no
    negative value.  The stage methods other than electrocoagulation are this
    transform at their own tables, and every table of the program is a
    removal profile. *)
Theorem stage_transform_correct (removals : dict Q) (l : loc) (h : heap) (d : dict Q) :
  h !! l = Some d ->
  well_formed d = true ->
  is_profile removals = true ->
  exists out,
    apply_removals removals l h = Ok (List.length h, h ++ [out])
    /\ (forall p v, dict_get p d = Some v ->
          exists v', dict_get p out = Some v'
                     /\ v' == v * (1 - default 0 (dict_get p removals)))
    /\ keys out = keys d
    /\ (forall p v', dict_get p out = Some v' -> 0 <= v')
    /\ (forall self f, plain_stage f = true ->
          call self f = apply_removals (removals_of (plan self) f))
    /\ (forall p f, is_profile (removals_of p f) = true).
Proof.
  intros Hl Hwf Hprof.
  unfold well_formed in Hwf. unfold is_profile in Hprof.
  repeat rewrite andb_true_iff in Hwf, Hprof.
  destruct Hwf as [[_ Hcov] Hnn]. destruct Hprof as [[Hdist Hsub] Hfrac].
  exists (attenuate removals d). repeat split.
  - apply apply_removals_spec; [exact Hl|].
    eapply covers_sub; [exact Hcov|exact Hsub].
  - intros p v Hv. rewrite (attenuate_get _ _ _ v Hdist Hv).
    eexists. split; [reflexivity|].
    destruct (dict_get p removals); simpl; ring.
  - apply keys_attenuate.
  - intros p v' Hout.
    destruct (dict_get p d) as [v|] eqn:Hv.
    + destruct (attenuate_le removals d p v Hdist Hfrac Hv) as (w & Hw & Hpos & _).
      { eapply nonnegative_get; eassumption. }
      congruence.
    + apply dict_get_None_mem in Hv.
      rewrite dict_mem_keys, <- (keys_attenuate removals), <- dict_mem_keys in Hv.
      apply dict_get_None_mem in Hv. congruence.
  - intros self f. apply plain_stage_transform.
  - apply removals_profile.
Qed.

Lemma stage_transform_correct_witness :
  exists out,
    apply_removals coagulation_tank_removals 0%nat [raw_wastewater_literal 2]
    = Ok (1%nat, [raw_wastewater_literal 2] ++ [out])
    /\ (forall p v, dict_get p (raw_wastewater_literal 2) = Some v ->
          exists v', dict_get p out = Some v'
                     /\ v' == v * (1 - default 0 (dict_get p coagulation_tank_removals)))
    /\ keys out = keys (raw_wastewater_literal 2)
    /\ (forall p v', dict_get p out = Some v' -> 0 <= v')
    /\ (forall self f, plain_stage f = true ->
          call self f = apply_removals (removals_of (plan self) f))
    /\ (forall p f, is_profile (removals_of p f) = true).
Proof.
  apply (stage_transform_correct coagulation_tank_removals 0%nat
           [raw_wastewater_literal 2] (raw_wastewater_literal 2));
    reflexivity.
Defined.

(** C4: every stage, on a vector with all tracked parameters, returns a
    vector in which each parameter with a non-negative input value is no
    larger than it was; the one exception is pH at electrocoagulation, which
    becomes [min(v * 1.1, 7.0)] (at most 7.0) when [v < 7],
    [max(v * 0.95, 7.5)] (at least 7.5) when [v > 8], and stays [v]
    otherwise. *)
Theorem stages_never_increase (self : simulation) (f : unit_function)
    (l : loc) (h : heap) (d : dict Q) :
  h !! l = Some d ->
  covers d parameters = true ->
  exists out,
    call self f l h = Ok (List.length h, h ++ [out])
    /\ (forall p v,
          f <> Electrocoagulation \/ p <> "pH" ->
          dict_get p d = Some v -> 0 <= v ->
          exists v', dict_get p out = Some v' /\ v' <= v)
    /\ (f = Electrocoagulation ->
        forall v, dict_get "pH" d = Some v ->
          dict_get "pH" out = Some (_adjust_pH v)
          /\ (v < 7 -> _adjust_pH v == Qmin (v * 1.1) 7.0 /\ _adjust_pH v <= 7.0)
          /\ (8 < v -> _adjust_pH v == Qmax (v * 0.95) 7.5 /\ 7.5 <= _adjust_pH v)
          /\ (7 <= v -> v <= 8 -> _adjust_pH v = v)).
Proof.
  intros Hl Hc. exists (stage_value (plan self) f d).
  split; [now apply call_spec|]. split.
  - intros p v Hexc Hv Hpos.
    destruct (attenuate_le (removals_of (plan self) f) d p v
                (removals_distinct _ _) (removals_fractions _ _) Hv Hpos)
      as (v' & Hv' & _ & Hle).
    exists v'. split; [|exact Hle].
    destruct f; try exact Hv'.
    destruct Hexc as [Hne|Hne]; [congruence|].
    unfold stage_value. destruct (dict_get "pH" d); [|exact Hv'].
    rewrite dict_get_set_ne by congruence. exact Hv'.
  - intros -> v Hv. split; [|split; [|split]].
    + unfold stage_value. rewrite Hv. apply dict_get_set_eq.
    + intros Hlt. unfold _adjust_pH.
      rewrite (proj2 (Qltb_lt v 7) Hlt).
      split; [apply py_min_Qmin|apply py_min_le_r].
    + intros Hgt. unfold _adjust_pH.
      assert (Qltb v 7 = false) as ->.
      { apply Qltb_ge. apply Qlt_le_weak. eapply Qlt_trans; [|exact Hgt]. reflexivity. }
      rewrite (proj2 (Qltb_lt 8 v) Hgt).
      split; [apply py_max_Qmax|apply py_max_ge_r].
    + intros H7 H8. unfold _adjust_pH.
      now rewrite (proj2 (Qltb_ge v 7) H7), (proj2 (Qltb_ge 8 v) H8).
Qed.

Lemma stages_never_increase_witness :
  exists out,
    call {| plan := 2; flow_rate := 200; hourly_flow := 200 / 24;
            raw_wastewater := 0%nat;
            effluent_limits := effluent_limits_literal;
            treatment_units := _initialize_treatment_units 2;
            concentration_history := [] |}
         Electrocoagulation 0%nat [raw_wastewater_literal 2]
    = Ok (1%nat, [raw_wastewater_literal 2] ++ [out])
    /\ (forall p v,
          Electrocoagulation <> Electrocoagulation \/ p <> "pH" ->
          dict_get p (raw_wastewater_literal 2) = Some v -> 0 <= v ->
          exists v', dict_get p out = Some v' /\ v' <= v)
    /\ (Electrocoagulation = Electrocoagulation ->
        forall v, dict_get "pH" (raw_wastewater_literal 2) = Some v ->
          dict_get "pH" out = Some (_adjust_pH v)
          /\ (v < 7 -> _adjust_pH v == Qmin (v * 1.1) 7.0 /\ _adjust_pH v <= 7.0)
          /\ (8 < v -> _adjust_pH v == Qmax (v * 0.95) 7.5 /\ 7.5 <= _adjust_pH v)
          /\ (7 <= v -> v <= 8 -> _adjust_pH v = v)).
Proof.
  apply (stages_never_increase _ Electrocoagulation 0%nat
           [raw_wastewater_literal 2] (raw_wastewater_literal 2));
    reflexivity.
Defined.

Lemma meets_scalar (L v : Q) : meets_limit (Scalar L) v = true <-> v <= L.
Proof. apply Qle_bool_iff. Qed.

Lemma meets_range (lo hi v : Q) :
  meets_limit (Range lo hi) v = true <-> lo <= v /\ v <= hi.
Proof. simpl. rewrite andb_true_iff, !Qle_bool_iff. reflexivity. Qed.

(** C5: with a history present, the evaluator reads the vector of the last
    entry and returns, per parameter of that vector: for pH, (value, true)
    whatever the value; nothing for a parameter without a limit (and nothing
    for a name the vector lacks); for a scalar limit [L], pass iff
    [value <= L]; for a range limit, pass iff [lo <= value <= hi].  With the
    built-in table Alkalinity passes iff its value lies in [50, 150]: 50.0
    and 150.0 pass, 49.999 and 150.001 fail. *)
Theorem compliance_rules (self : simulation) (h : heap) (nm : string) (l : loc)
    (final : dict Q) :
  last (concentration_history self) = Some (nm, l) ->
  h !! l = Some final ->
  distinct (keys final) = true ->
  exists r,
    evaluate_compliance self h = Ok ((self, r), h)
    /\ (forall v, dict_get "pH" final = Some v -> dict_get "pH" r = Some (v, true))
    /\ (forall p, p <> "pH" -> dict_get p (effluent_limits self) = None ->
          dict_get p r = None)
    /\ (forall p, dict_get p final = None -> dict_get p r = None)
    /\ (forall p v L, p <> "pH" -> dict_get p final = Some v ->
          dict_get p (effluent_limits self) = Some (Scalar L) ->
          exists b, dict_get p r = Some (v, b) /\ (b = true <-> v <= L))
    /\ (forall p v lo hi, p <> "pH" -> dict_get p final = Some v ->
          dict_get p (effluent_limits self) = Some (Range lo hi) ->
          exists b, dict_get p r = Some (v, b) /\ (b = true <-> lo <= v /\ v <= hi))
    /\ (effluent_limits self = effluent_limits_literal ->
        forall v, dict_get "Alkalinity" final = Some v ->
          exists b, dict_get "Alkalinity" r = Some (v, b)
                    /\ (b = true <-> 50 <= v /\ v <= 150))
    /\ compliance_loop effluent_limits_literal
         [("Alkalinity", 50.0)] []
       = [("Alkalinity", (50.0, true))]
    /\ compliance_loop effluent_limits_literal [("Alkalinity", 150.0)] []
       = [("Alkalinity", (150.0, true))]
    /\ compliance_loop effluent_limits_literal [("Alkalinity", 49.999)] []
       = [("Alkalinity", (49.999, false))]
    /\ compliance_loop effluent_limits_literal [("Alkalinity", 150.001)] []
       = [("Alkalinity", (150.001, false))].
Proof.
  intros Hlast Hl Hdist.
  exists (compliance_loop (effluent_limits self) final []).
  split; [eapply evaluate_present; eassumption|].
  assert (Hget : forall p v, dict_get p final = Some v ->
            dict_get p (compliance_loop (effluent_limits self) final [])
            = compliance_entry (effluent_limits self) p v).
  { intros p v Hv. rewrite compliance_loop_get by exact Hdist. rewrite Hv.
    now destruct (compliance_entry (effluent_limits self) p v). }
  assert (Hentry : forall p v lim, p <> "pH" ->
            dict_get p (effluent_limits self) = Some lim ->
            compliance_entry (effluent_limits self) p v
            = Some (v, meets_limit lim v)).
  { intros p v lim Hp Hlim. unfold compliance_entry.
    destruct (String.eqb_spec p "pH"); [contradiction|]. now rewrite Hlim. }
  repeat match goal with |- _ /\ _ => split end; try reflexivity.
  - intros v Hv. now rewrite (Hget _ _ Hv).
  - intros p Hp Hlim. rewrite compliance_loop_get by exact Hdist.
    destruct (dict_get p final) as [v|]; [|reflexivity].
    unfold compliance_entry. destruct (String.eqb_spec p "pH"); [contradiction|].
    now rewrite Hlim.
  - intros p Hp. rewrite compliance_loop_get by exact Hdist. now rewrite Hp.
  - intros p v L Hp Hv Hlim. exists (meets_limit (Scalar L) v).
    rewrite (Hget _ _ Hv), (Hentry _ _ _ Hp Hlim).
    split; [reflexivity|apply meets_scalar].
  - intros p v lo hi Hp Hv Hlim. exists (meets_limit (Range lo hi) v).
    rewrite (Hget _ _ Hv), (Hentry _ _ _ Hp Hlim).
    split; [reflexivity|apply meets_range].
  - intros Hlim v Hv. exists (meets_limit (Range 50 150) v).
    rewrite (Hget _ _ Hv), Hlim.
    split; [reflexivity|apply meets_range].
Qed.

Lemma compliance_rules_witness :
  exists r,
    evaluate_compliance
      {| plan := 1; flow_rate := 200; hourly_flow := 200 / 24;
         raw_wastewater := 0%nat;
         effluent_limits := effluent_limits_literal;
         treatment_units := _initialize_treatment_units 1;
         concentration_history := [("Raw Wastewater", 1%nat)] |}
      [raw_wastewater_literal 1; raw_wastewater_literal 1]
    = Ok (({| plan := 1; flow_rate := 200; hourly_flow := 200 / 24;
              raw_wastewater := 0%nat;
              effluent_limits := effluent_limits_literal;
              treatment_units := _initialize_treatment_units 1;
              concentration_history := [("Raw Wastewater", 1%nat)] |}, r),
          [raw_wastewater_literal 1; raw_wastewater_literal 1])
    /\ dict_get "Alkalinity" r = Some (151.3, false)
    /\ dict_get "pH" r = Some (7.5, true).
Proof.
  destruct (compliance_rules
              {| plan := 1; flow_rate := 200; hourly_flow := 200 / 24;
                 raw_wastewater := 0%nat;
                 effluent_limits := effluent_limits_literal;
                 treatment_units := _initialize_treatment_units 1;
                 concentration_history := [("Raw Wastewater", 1%nat)] |}
              [raw_wastewater_literal 1; raw_wastewater_literal 1]
              "Raw Wastewater" 1%nat (raw_wastewater_literal 1)
              eq_refl eq_refl eq_refl) as (r & Hr & _).
  exists r. split; [exact Hr|].
  vm_compute in Hr. injection Hr as <-. split; reflexivity.
Defined.

(** C6: from an object whose raw vector has every tracked parameter,
    [run_simulation] succeeds; the history it returns (and stores in the
    object) has one entry more than the pipeline has stages, and read through
    the store it is the raw entry followed by each stage's name and result in
    pipeline order, each stage applied to the result of the one before.  It
    has 5 entries for the Plan 1 pipeline and 7 for the Plan 2 pipeline. *)
Theorem run_simulation_history (self : simulation) (h : heap) (raw : dict Q) :
  h !! raw_wastewater self = Some raw ->
  covers raw parameters = true ->
  exists self' hist h',
    run_simulation self h = Ok ((self', hist), h')
    /\ concentration_history self' = hist
    /\ List.length hist = S (List.length (treatment_units self))
    /\ resolve h' hist
       = map (fun e => (fst e, Some (snd e)))
             (history_value (plan self) (treatment_units self) raw)
    /\ (treatment_units self = _initialize_treatment_units 1 ->
        List.length hist = 5%nat)
    /\ (treatment_units self = _initialize_treatment_units 2 ->
        List.length hist = 7%nat).
Proof.
  intros Hl Hc.
  pose proof (run_simulation_spec self h raw Hl Hc) as Hrun.
  pose proof (resolve_run_simulation self h raw) as Hres.
  cbv zeta in Hrun, Hres.
  eexists _, _, _. split; [exact Hrun|].
  split; [reflexivity|].
  assert (Hlen : List.length
            (("Raw Wastewater", S (List.length h))
               :: snapshot_locs (S (S (List.length h)))
                    (map name (treatment_units self)))
          = S (List.length (treatment_units self))).
  { simpl. now rewrite length_snapshot_locs, length_map. }
  split; [exact Hlen|]. split; [exact Hres|].
  split; intros Hu; rewrite Hlen, Hu; reflexivity.
Qed.

Lemma run_simulation_history_witness :
  exists self' hist h',
    run_simulation
      {| plan := 1; flow_rate := 200; hourly_flow := 200 / 24;
         raw_wastewater := 0%nat;
         effluent_limits := effluent_limits_literal;
         treatment_units := _initialize_treatment_units 1;
         concentration_history := [] |}
      [raw_wastewater_literal 1]
    = Ok ((self', hist), h')
    /\ List.length hist = 5%nat
    /\ map fst hist
       = ["Raw Wastewater"; "Fine Screen"; "Plain Sedimentation";
          "Electrocoagulation"; "Rapid Sand Filter"].
Proof.
  destruct (run_simulation_history
              {| plan := 1; flow_rate := 200; hourly_flow := 200 / 24;
                 raw_wastewater := 0%nat;
                 effluent_limits := effluent_limits_literal;
                 treatment_units := _initialize_treatment_units 1;
                 concentration_history := [] |}
              [raw_wastewater_literal 1] (raw_wastewater_literal 1)
              eq_refl eq_refl)
    as (self' & hist & h' & Hrun & _ & _ & _ & Hfive & _).
  exists self', hist, h'. split; [exact Hrun|]. split; [exact (Hfive eq_refl)|].
  vm_compute in Hrun. now injection Hrun as <- <- <-.
Defined.

(** C8: on an object without history whose raw vector has every tracked
    parameter, the first call of the evaluator ends in the object and store
    that one call of [run_simulation] produces, with a non-empty history;
    calling the evaluator again returns the same record and leaves object
    and store as they were, so no second run takes place. *)
Theorem evaluation_is_memoized (self : simulation) (h : heap) (raw : dict Q) :
  concentration_history self = [] ->
  h !! raw_wastewater self = Some raw ->
  covers raw parameters = true ->
  exists self' hist' h' r,
    run_simulation self h = Ok ((self', hist'), h')
    /\ evaluate_compliance self h = Ok ((self', r), h')
    /\ concentration_history self' = hist'
    /\ hist' <> []
    /\ evaluate_compliance self' h' = Ok ((self', r), h')
    /\ (do x <- evaluate_compliance self;
        do y <- evaluate_compliance (fst x);
        do z <- evaluate_compliance (fst y);
        ret (snd x, snd y, snd z)) h
       = Ok ((r, r, r), h').
Proof.
  intros Hempty Hl Hc.
  destruct (evaluate_fresh self h raw Hempty Hl Hc)
    as (hist' & h' & nm & l & Hrun & Hlast & _ & Hfirst & Hagain).
  eexists (set_history self hist'), hist', h', _.
  split; [exact Hrun|]. split; [exact Hfirst|]. split; [reflexivity|].
  split; [intros ->; discriminate|]. split; [exact Hagain|].
  rewrite (bind_Ok _ _ _ _ _ Hfirst). simpl.
  rewrite (bind_Ok _ _ _ _ _ Hagain). simpl.
  rewrite (bind_Ok _ _ _ _ _ Hagain). reflexivity.
Qed.

Lemma evaluation_is_memoized_witness :
  exists self' hist' h' r,
    run_simulation
      {| plan := 2; flow_rate := 200; hourly_flow := 200 / 24;
         raw_wastewater := 0%nat;
         effluent_limits := effluent_limits_literal;
         treatment_units := _initialize_treatment_units 2;
         concentration_history := [] |}
      [raw_wastewater_literal 2]
    = Ok ((self', hist'), h')
    /\ List.length h' = 15%nat
    /\ evaluate_compliance self' h' = Ok ((self', r), h').
Proof.
  destruct (evaluation_is_memoized
              {| plan := 2; flow_rate := 200; hourly_flow := 200 / 24;
                 raw_wastewater := 0%nat;
                 effluent_limits := effluent_limits_literal;
                 treatment_units := _initialize_treatment_units 2;
                 concentration_history := [] |}
              [raw_wastewater_literal 2] (raw_wastewater_literal 2)
              eq_refl eq_refl eq_refl)
    as (self' & hist' & h' & r & Hrun & _ & _ & _ & Hagain & _).
  exists self', hist', h', r. split; [exact Hrun|]. split; [|exact Hagain].
  vm_compute in Hrun. now injection Hrun as <- <- <-.
Defined.

(** C9: a stage method, on a vector with every tracked parameter, returns a
    location that was not in the store before, and every dictionary that was
    in the store, its own input among them, is still there unchanged.  In a
    run, once the stages [units1] have executed, executing the later stages
    [units2] keeps the history recorded so far as a prefix of the history
    and leaves every dictionary of the store at that point, hence the raw
    vector and every recorded snapshot, unchanged. *)
Theorem stages_do_not_mutate (self : simulation) (units1 units2 : list treatment_unit)
    (cur : loc) (h : heap) (d : dict Q) :
  h !! cur = Some d ->
  covers d parameters = true ->
  (forall f, exists out,
      call self f cur h = Ok (List.length h, h ++ [out])
      /\ h !! List.length h = None
      /\ (h ++ [out]) !! cur = Some d
      /\ (forall l0 d0, h !! l0 = Some d0 -> (h ++ [out]) !! l0 = Some d0))
  /\ exists self1 cur1 h1 self2 h2 later,
       run_units units1 self cur h = Ok (self1, h1)
       /\ h1 !! cur1 = Some (final_value (plan self) units1 d)
       /\ run_units units2 self1 cur1 h1 = Ok (self2, h2)
       /\ run_units (units1 ++ units2) self cur h = Ok (self2, h2)
       /\ concentration_history self2 = concentration_history self1 ++ later
       /\ List.length later = List.length units2
       /\ (forall l0 d0, h1 !! l0 = Some d0 -> h2 !! l0 = Some d0)
       /\ (forall l0 d0, h !! l0 = Some d0 -> h2 !! l0 = Some d0).
Proof.
  intros Hl Hc. split.
  - intros f. exists (stage_value (plan self) f d).
    split; [now apply call_spec|].
    split; [now apply lookup_ge_None_2|].
    split; intros; now apply lookup_app_l_Some.
  - destruct (run_units_app units1 units2 self cur h d Hl Hc)
      as (self1 & cur1 & h1 & Hrun1 & Hcur1 & Hplan & Happ).
    assert (Hc1 : covers (final_value (plan self) units1 d) parameters = true).
    { clear -Hc. unfold final_value. revert d Hc.
      induction units1 as [|u rest IH]; intros d Hc; simpl; [exact Hc|].
      apply IH. now rewrite covers_stage_value. }
    pose proof (run_units_spec units2 self1 cur1 h1 _ Hcur1 Hc1) as Hrun2.
    pose proof (run_units_spec units1 self cur h d Hl Hc) as Hspec1.
    rewrite Hrun1 in Hspec1. injection Hspec1 as _ Hh1.
    eexists self1, cur1, h1, _, _, _.
    split; [exact Hrun1|]. split; [exact Hcur1|]. split; [exact Hrun2|].
    split; [now rewrite Happ|].
    split; [reflexivity|].
    split; [now rewrite length_snapshot_locs, length_map|].
    split.
    + intros. now apply lookup_app_l_Some.
    + intros. apply lookup_app_l_Some. rewrite Hh1. now apply lookup_app_l_Some.
Qed.

Lemma stages_do_not_mutate_witness :
  exists self2 h2,
    run_units (_initialize_treatment_units 1)
      {| plan := 1; flow_rate := 200; hourly_flow := 200 / 24;
         raw_wastewater := 0%nat;
         effluent_limits := effluent_limits_literal;
         treatment_units := _initialize_treatment_units 1;
         concentration_history := [] |}
      0%nat [raw_wastewater_literal 1]
    = Ok (self2, h2)
    /\ h2 !! 0%nat = Some (raw_wastewater_literal 1).
Proof.
  destruct (stages_do_not_mutate
              {| plan := 1; flow_rate := 200; hourly_flow := 200 / 24;
                 raw_wastewater := 0%nat;
                 effluent_limits := effluent_limits_literal;
                 treatment_units := _initialize_treatment_units 1;
                 concentration_history := [] |}
              [ {| name := "Fine Screen"; function := FineScreen |};
                {| name := "Plain Sedimentation"; function := PlainSedimentation |} ]
              [ {| name := "Electrocoagulation"; function := Electrocoagulation |};
                {| name := "Rapid Sand Filter"; function := RapidSandFilter |} ]
              0%nat [raw_wastewater_literal 1] (raw_wastewater_literal 1)
              eq_refl eq_refl)
    as (_ & self1 & cur1 & h1 & self2 & h2 & later & _ & _ & _ & Hrun & _ & _ & _ & Hframe).
  exists self2, h2. split; [exact Hrun|]. now apply Hframe.
Defined.

(** C10: for every selector, hence for Plan 1 and for Plan 2, evaluating a
    newly constructed object yields a record whose keys are the 12 tracked
    parameters, in order; pH carries (value, true); every other key of the
    raw vector has an entry in the limit table, and every key of the final
    vector is pH or has a limit, so no parameter is skipped. *)
Theorem compliance_record_is_complete (p : Z) (h : heap) :
  exists s h1 s' r h' nm l final,
    __init__ p h = Ok (s, h1)
    /\ evaluate_compliance s h1 = Ok ((s', r), h')
    /\ last (concentration_history s') = Some (nm, l)
    /\ h' !! l = Some final
    /\ keys final = parameters
    /\ keys r = parameters
    /\ List.length r = 12%nat
    /\ (exists v, dict_get "pH" final = Some v /\ dict_get "pH" r = Some (v, true))
    /\ forallb (fun k => String.eqb k "pH" || dict_mem k (effluent_limits s'))
               (keys (raw_wastewater_literal p)) = true
    /\ forallb (fun k => String.eqb k "pH" || dict_mem k (effluent_limits s'))
               (keys final) = true.
Proof.
  destruct (evaluate_constructed p h)
    as (s & s' & h' & nm & l & Hinit & Heval & Hlimits & Hlast & Hfinal).
  eexists s, _, s', _, h', nm, l, _.
  split; [exact Hinit|]. split; [exact Heval|]. split; [exact Hlast|].
  split; [exact Hfinal|]. rewrite Hlimits.
  unfold selected. destruct (p =? 1)%Z;
    (split; [vm_compute; reflexivity|]);
    (split; [vm_compute; reflexivity|]);
    (split; [vm_compute; reflexivity|]);
    (split; [eexists; split; vm_compute; reflexivity|]);
    split; reflexivity.
Qed.

(** * Further properties of the code *)

(** ** Missing parameters *)

Lemma first_missing_keys {V W} (items : dict W) (d d' : dict V) :
  keys d = keys d' -> first_missing items d = first_missing items d'.
Proof.
  intros Hk. induction items as [|[k w] rest IH]; simpl; [reflexivity|].
  now rewrite IH, !dict_mem_keys, Hk.
Qed.

Lemma first_missing_absent {V W} (items : dict W) (d : dict V) (k : string) :
  first_missing items d = Some k -> dict_mem k d = false /\ In k (keys items).
Proof.
  induction items as [|[q w] rest IH]; simpl; [discriminate|].
  destruct (dict_mem q d) eqn:E.
  - intros H. destruct (IH H). auto.
  - intros [= <-]. auto.
Qed.

Lemma first_missing_None {V W} (items : dict W) (d : dict V) :
  first_missing items d = None <-> covers d (keys items) = true.
Proof.
  unfold covers. induction items as [|[q w] rest IH]; simpl; [tauto|].
  destruct (dict_mem q d); simpl; [exact IH|]. split; discriminate.
Qed.

Lemma loop_raises (removals : dict Q) (l : loc) (h : heap) (d : dict Q) (k : string) :
  h !! l = Some d ->
  first_missing removals d = Some k ->
  for_items removals (fun param removal => imul l param (1 - removal)) h
  = Raise (KeyError k).
Proof.
  revert h d. induction removals as [|[p r] rest IH]; intros h d Hl Hk; simpl.
  - discriminate.
  - simpl in Hk. unfold dict_mem in Hk.
    destruct (dict_get p d) as [v|] eqn:Hv.
    + rewrite (bind_Ok _ _ _ _ _ (imul_spec l p (1 - r) v h d Hl Hv)).
      apply (IH _ (dict_set p (v * (1 - r)) d)).
      * apply list_lookup_insert_eq. eapply lookup_lt_Some, Hl.
      * rewrite <- Hk. apply first_missing_keys, keys_set_present.
        eapply dict_get_Some_mem, Hv.
    + injection Hk as <-.
      unfold bind, imul, bind, getitem. now rewrite Hl, Hv.
Qed.

Lemma table_loop_raises (self : simulation) (f : unit_function) (l : loc)
    (h : heap) (d : dict Q) (k : string) :
  h !! l = Some d ->
  first_missing (removals_of (plan self) f) d = Some k ->
  call self f l h = Raise (KeyError k).
Proof.
  intros Hl Hk.
  assert (Hloop := loop_raises _ (List.length h) (h ++ [d]) d k
                     (lookup_new_slot h d) Hk).
  destruct (plain_stage f) eqn:Hf.
  - rewrite plain_stage_transform by exact Hf. unfold apply_removals.
    unfold bind at 1. unfold dict_copy. rewrite Hl.
    unfold bind at 1. now rewrite Hloop.
  - destruct f; try discriminate.
    change (call self Electrocoagulation) with (electrocoagulation self).
    unfold electrocoagulation.
    change (if (plan self =? 1)%Z then electrocoagulation_plan1_removals
            else electrocoagulation_plan2_removals)
      with (removals_of (plan self) Electrocoagulation).
    unfold bind at 1. unfold dict_copy. rewrite Hl.
    unfold bind at 1. now rewrite Hloop.
Qed.

(** X1: a stage method given a vector that lacks a parameter of its table
    raises [KeyError] for the first such parameter in table order, and
    returns nothing. *)
Theorem stage_raises_on_missing_parameter (self : simulation) (f : unit_function)
    (l : loc) (h : heap) (d : dict Q) (k : string) :
  h !! l = Some d ->
  first_missing (removals_of (plan self) f) d = Some k ->
  call self f l h = Raise (KeyError k)
  /\ dict_get k d = None
  /\ In k (keys (removals_of (plan self) f)).
Proof.
  intros Hl Hk. split; [now apply (table_loop_raises self f l h d k)|].
  destruct (first_missing_absent _ _ _ Hk) as [Hmem Hin].
  split; [now apply dict_get_None_mem|exact Hin].
Qed.

Lemma stage_raises_on_missing_parameter_witness :
  call {| plan := 1; flow_rate := 200; hourly_flow := 200 / 24;
          raw_wastewater := 0%nat;
          effluent_limits := effluent_limits_literal;
          treatment_units := _initialize_treatment_units 1;
          concentration_history := [] |}
       RapidSandFilter 0%nat [[("pH", 7.5); ("BOD", 10); ("COD", 20)]]
  = Raise (KeyError "TSS")
  /\ dict_get "TSS" [("pH", 7.5); ("BOD", 10); ("COD", 20)] = None
  /\ In "TSS" (keys (removals_of 1 RapidSandFilter)).
Proof.
  apply (stage_raises_on_missing_parameter _ RapidSandFilter 0%nat
           [[("pH", 7.5); ("BOD", 10); ("COD", 20)]]
           [("pH", 7.5); ("BOD", 10); ("COD", 20)] "TSS");
    reflexivity.
Defined.

(** X2: on a vector that has every parameter of the table but no pH, the
    stages other than electrocoagulation succeed (they never read pH), while
    electrocoagulation raises [KeyError] for pH. *)
Theorem only_electrocoagulation_needs_pH (self : simulation) (f : unit_function)
    (l : loc) (h : heap) (d : dict Q) :
  h !! l = Some d ->
  covers d (keys (removals_of (plan self) f)) = true ->
  dict_get "pH" d = None ->
  call self f l h
  = if plain_stage f
    then Ok (List.length h, h ++ [attenuate (removals_of (plan self) f) d])
    else Raise (KeyError "pH").
Proof.
  intros Hl Hc HpH. destruct (plain_stage f) eqn:Hf.
  - rewrite plain_stage_transform by exact Hf. now apply apply_removals_spec.
  - destruct f; try discriminate.
    change (call self Electrocoagulation) with (electrocoagulation self).
    unfold electrocoagulation.
    change (if (plan self =? 1)%Z then electrocoagulation_plan1_removals
            else electrocoagulation_plan2_removals)
      with (removals_of (plan self) Electrocoagulation).
    unfold bind at 1. unfold dict_copy. rewrite Hl.
    erewrite bind_Ok by (apply loop_spec; [apply lookup_new_slot|exact Hc]).
    rewrite insert_new_slot. unfold bind, getitem.
    rewrite lookup_app_l by (eapply lookup_lt_Some, Hl).
    now rewrite Hl, HpH.
Qed.

Lemma only_electrocoagulation_needs_pH_witness :
  call {| plan := 2; flow_rate := 200; hourly_flow := 200 / 24;
          raw_wastewater := 0%nat;
          effluent_limits := effluent_limits_literal;
          treatment_units := _initialize_treatment_units 2;
          concentration_history := [] |}
       Electrocoagulation 0%nat [tail (raw_wastewater_literal 2)]
  = Raise (KeyError "pH").
Proof.
  apply (only_electrocoagulation_needs_pH _ Electrocoagulation 0%nat
           [tail (raw_wastewater_literal 2)] (tail (raw_wastewater_literal 2)));
    reflexivity.
Defined.

(** X3: when the raw vector lacks a parameter of the first stage's table,
    [run_simulation] raises the [KeyError] of that stage, and so does the
    evaluator of an object without history, which starts by running. *)
Theorem run_raises_on_incomplete_raw (self : simulation) (h : heap) (raw : dict Q)
    (unit : treatment_unit) (rest : list treatment_unit) (k : string) :
  h !! raw_wastewater self = Some raw ->
  treatment_units self = unit :: rest ->
  concentration_history self = [] ->
  first_missing (removals_of (plan self) (function unit)) raw = Some k ->
  run_simulation self h = Raise (KeyError k)
  /\ evaluate_compliance self h = Raise (KeyError k).
Proof.
  intros Hl Hunits Hhist Hk.
  assert (Hrun : run_simulation self h = Raise (KeyError k)).
  { unfold run_simulation.
    unfold bind at 1. unfold dict_copy at 1. rewrite Hl.
    unfold bind at 1. unfold dict_copy at 1. rewrite lookup_new_slot.
    unfold bind at 1. simpl treatment_units. rewrite Hunits.
    change (run_units (unit :: rest) ?s ?c)
      with (do c' <- call s (function unit) c;
            do snapshot <- dict_copy c';
            run_units rest (append_history s (name unit, snapshot)) c').
    unfold bind at 1.
    rewrite (table_loop_raises _ (function unit) _ _ raw k); [reflexivity| |exact Hk].
    rewrite lookup_app_l by (rewrite length_app; simpl; lia).
    apply lookup_new_slot. }
  split; [exact Hrun|].
  unfold evaluate_compliance. rewrite Hhist.
  unfold bind at 1. unfold bind at 1. now rewrite Hrun.
Qed.

Lemma run_raises_on_incomplete_raw_witness :
  run_simulation
    {| plan := 1; flow_rate := 200; hourly_flow := 200 / 24;
       raw_wastewater := 0%nat;
       effluent_limits := effluent_limits_literal;
       treatment_units := _initialize_treatment_units 1;
       concentration_history := [] |}
    [[("pH", 7.5); ("BOD", 1025)]]
  = Raise (KeyError "COD")
  /\ evaluate_compliance
       {| plan := 1; flow_rate := 200; hourly_flow := 200 / 24;
          raw_wastewater := 0%nat;
          effluent_limits := effluent_limits_literal;
          treatment_units := _initialize_treatment_units 1;
          concentration_history := [] |}
       [[("pH", 7.5); ("BOD", 1025)]]
     = Raise (KeyError "COD").
Proof.
  apply (run_raises_on_incomplete_raw _ [[("pH", 7.5); ("BOD", 1025)]]
           [("pH", 7.5); ("BOD", 1025)]
           {| name := "Fine Screen"; function := FineScreen |}
           [ {| name := "Plain Sedimentation"; function := PlainSedimentation |};
             {| name := "Electrocoagulation"; function := Electrocoagulation |};
             {| name := "Rapid Sand Filter"; function := RapidSandFilter |} ]
           "COD");
    reflexivity.
Defined.

(** ** The pH rule *)

(** X4: above 8 the rule always returns [v * 0.95]: that product exceeds
    7.6, so the floor 7.5 of the [max] never takes effect; the result is
    below the input. *)
Theorem adjust_pH_above_8 (v : Q) :
  8 < v ->
  _adjust_pH v = v * 0.95
  /\ 7.6 < _adjust_pH v
  /\ _adjust_pH v < v.
Proof.
  intros Hv. unfold _adjust_pH.
  assert (Qltb v 7 = false) as -> by (apply Qltb_ge; lra).
  rewrite (proj2 (Qltb_lt 8 v) Hv). unfold py_max.
  assert (Qltb (v * 0.95) 7.5 = false) as -> by (apply Qltb_ge; lra).
  repeat split; lra.
Qed.

Lemma adjust_pH_above_8_witness :
  _adjust_pH 9 = 9 * 0.95 /\ 7.6 < _adjust_pH 9 /\ _adjust_pH 9 < 9.
Proof. apply (adjust_pH_above_8 9). reflexivity. Defined.

(** X5: below 7 a non-negative pH is never lowered: the rule returns
    [v * 1.1] while that does not exceed 7, and exactly 7.0 once it does. *)
Theorem adjust_pH_below_7 (v : Q) :
  0 <= v ->
  v < 7 ->
  v <= _adjust_pH v
  /\ (v * 1.1 <= 7 -> _adjust_pH v = v * 1.1)
  /\ (7 < v * 1.1 -> _adjust_pH v = 7.0).
Proof.
  intros H0 H7. unfold _adjust_pH.
  rewrite (proj2 (Qltb_lt v 7) H7). unfold py_min.
  destruct (Qltb 7.0 (v * 1.1)) eqn:E.
  - apply Qltb_lt in E. split; [lra|]. split; [intros; lra|reflexivity].
  - apply Qltb_ge in E. split; [lra|]. split; [reflexivity|intros; lra].
Qed.

Lemma adjust_pH_below_7_witness :
  6.5 <= _adjust_pH 6.5
  /\ (6.5 * 1.1 <= 7 -> _adjust_pH 6.5 = 6.5 * 1.1)
  /\ (7 < 6.5 * 1.1 -> _adjust_pH 6.5 = 7.0).
Proof. apply (adjust_pH_below_7 6.5); [discriminate|reflexivity]. Defined.

(** ** The shape of the compliance record *)

Lemma keys_set_absent {V} (k : string) (v : V) (d : dict V) :
  mem k (keys d) = false -> keys (dict_set k v d) = keys d ++ [k].
Proof.
  unfold mem, keys. induction d as [|[k' v'] d IH]; simpl; [reflexivity|].
  destruct (String.eqb k k'); simpl; [discriminate|].
  intros H. now rewrite IH.
Qed.

Lemma mem_app (k : string) (a b : list string) :
  mem k (a ++ b) = mem k a || mem k b.
Proof. unfold mem. apply existsb_app. Qed.

Lemma distinct_middle (a : list string) (q : string) (rest : list string) :
  distinct (a ++ q :: rest) = true ->
  mem q a = false /\ distinct (a ++ rest) = true
  /\ distinct ((a ++ [q]) ++ rest) = true.
Proof.
  induction a as [|x a IH]; simpl.
  - rewrite andb_true_iff, negb_true_iff. intros [Hq Hrest].
    split; [reflexivity|]. split; [exact Hrest|]. now rewrite Hq, Hrest.
  - rewrite !andb_true_iff, !negb_true_iff. intros [Hx Ha].
    destruct (IH Ha) as (Hqa & Hdrop & Hmove).
    rewrite mem_app in Hx. simpl in Hx.
    apply orb_false_iff in Hx as [Hxa Hx].
    apply orb_false_iff in Hx as [Hxq Hxrest].
    assert (Hqx : String.eqb q x = false).
    { rewrite String.eqb_sym. exact Hxq. }
    rewrite Hqx, Hqa. repeat split; try assumption.
    + now rewrite mem_app, Hxa, Hxrest.
    + rewrite !mem_app. simpl. now rewrite Hxa, Hxq, Hxrest.
Qed.

Lemma keys_compliance_loop (limits : dict limit) (items : dict Q)
    (acc : compliance_record) :
  distinct (keys acc ++ keys items) = true ->
  keys (compliance_loop limits items acc)
  = keys acc ++ List.filter (reported limits) (keys items).
Proof.
  revert acc. induction items as [|[q v] rest IH]; intros acc Hd.
  - simpl. now rewrite app_nil_r.
  - change (keys ((q, v) :: rest)) with (q :: keys rest) in *.
    destruct (distinct_middle _ _ _ Hd) as (Hq & Hdrop & Hmove).
    assert (Hadd : forall e,
              keys (compliance_loop limits rest (dict_set q e acc))
              = keys acc ++ q :: List.filter (reported limits) (keys rest)).
    { intros e. rewrite IH; rewrite keys_set_absent by exact Hq.
      - now rewrite <- app_assoc.
      - exact Hmove. }
    simpl. unfold reported at 1.
    destruct (String.eqb q "pH"); simpl.
    + apply Hadd.
    + unfold dict_mem. destruct (dict_get q limits) as [lim|]; simpl.
      * apply Hadd.
      * now apply IH.
Qed.

(** X6: with a history present, the record lists exactly the keys of the
    final vector that are pH or have a limit, in the order of the final
    vector; in particular it never has more entries than the vector. *)
Theorem record_follows_final_vector (self : simulation) (h : heap) (nm : string)
    (l : loc) (final : dict Q) :
  last (concentration_history self) = Some (nm, l) ->
  h !! l = Some final ->
  distinct (keys final) = true ->
  exists r,
    evaluate_compliance self h = Ok ((self, r), h)
    /\ keys r = List.filter (reported (effluent_limits self)) (keys final)
    /\ (List.length r <= List.length final)%nat.
Proof.
  intros Hlast Hl Hd.
  exists (compliance_loop (effluent_limits self) final []).
  split; [eapply evaluate_present; eassumption|].
  assert (Hk := keys_compliance_loop (effluent_limits self) final [] Hd).
  simpl in Hk. split; [exact Hk|].
  rewrite <- (length_map fst (compliance_loop _ _ _)), <- (length_map fst final).
  fold (keys (compliance_loop (effluent_limits self) final [])).
  rewrite Hk. apply List.filter_length_le.
Qed.

Lemma record_follows_final_vector_witness :
  exists r,
    evaluate_compliance
      {| plan := 1; flow_rate := 200; hourly_flow := 200 / 24;
         raw_wastewater := 0%nat;
         effluent_limits := effluent_limits_literal;
         treatment_units := _initialize_treatment_units 1;
         concentration_history := [("Rapid Sand Filter", 0%nat)] |}
      [[("Chloride", 3); ("BOD", 40); ("pH", 9); ("TSS", 1)]]
    = Ok (({| plan := 1; flow_rate := 200; hourly_flow := 200 / 24;
              raw_wastewater := 0%nat;
              effluent_limits := effluent_limits_literal;
              treatment_units := _initialize_treatment_units 1;
              concentration_history := [("Rapid Sand Filter", 0%nat)] |}, r),
          [[("Chloride", 3); ("BOD", 40); ("pH", 9); ("TSS", 1)]])
    /\ keys r = ["BOD"; "pH"; "TSS"].
Proof.
  destruct (record_follows_final_vector
              {| plan := 1; flow_rate := 200; hourly_flow := 200 / 24;
                 raw_wastewater := 0%nat;
                 effluent_limits := effluent_limits_literal;
                 treatment_units := _initialize_treatment_units 1;
                 concentration_history := [("Rapid Sand Filter", 0%nat)] |}
              [[("Chloride", 3); ("BOD", 40); ("pH", 9); ("TSS", 1)]]
              "Rapid Sand Filter" 0%nat
              [("Chloride", 3); ("BOD", 40); ("pH", 9); ("TSS", 1)]
              eq_refl eq_refl eq_refl) as (r & Hr & Hk & _).
  exists r. split; [exact Hr|]. rewrite Hk. reflexivity.
Defined.

(** ** Where a run puts its vectors *)

Lemma length_run_value (plan : Z) (units : list treatment_unit) (d : dict Q) :
  List.length (run_value plan units d) = List.length units.
Proof.
  revert d. induction units as [|u rest IH]; intros d; simpl; [reflexivity|].
  now rewrite IH.
Qed.

Lemma length_store_of (entries : list (string * dict Q)) :
  List.length (store_of entries) = (2 * List.length entries)%nat.
Proof.
  induction entries as [|e rest IH]; [reflexivity|].
  change (store_of (e :: rest)) with (snd e :: snd e :: store_of rest).
  simpl. rewrite IH. lia.
Qed.

Lemma snapshot_locs_lookup (n : nat) (names : list string) (i : nat)
    (nm : string) (l : loc) :
  snapshot_locs n names !! i = Some (nm, l) -> l = (n + 1 + 2 * i)%nat.
Proof.
  revert n i. induction names as [|x rest IH]; intros n i; simpl.
  - discriminate.
  - destruct i as [|i]; simpl.
    + intros [= _ <-]. lia.
    + intros H. apply IH in H. lia.
Qed.

(** The history of a run: entry [i] is stored at the [2 i + 1]-th new
    location, and the run allocates two dictionaries per entry. *)
Lemma run_simulation_layout (self : simulation) (h : heap) (raw : dict Q) :
  h !! raw_wastewater self = Some raw ->
  covers raw parameters = true ->
  exists hist h',
    run_simulation self h = Ok ((set_history self hist, hist), h')
    /\ resolve h' hist
       = map (fun e => (fst e, Some (snd e)))
             (history_value (plan self) (treatment_units self) raw)
    /\ (exists ext, h' = h ++ ext)
    /\ List.length h' = (List.length h + 2 * List.length hist)%nat
    /\ (forall i nm l, hist !! i = Some (nm, l) ->
          l = (List.length h + 1 + 2 * i)%nat /\ (i < List.length hist)%nat).
Proof.
  intros Hl Hc.
  pose proof (run_simulation_spec self h raw Hl Hc) as Hrun.
  pose proof (resolve_run_simulation self h raw) as Hres.
  cbv zeta in Hrun, Hres.
  eexists _, _. split; [exact Hrun|]. split; [exact Hres|].
  split; [eexists; reflexivity|]. split.
  - rewrite length_app. simpl.
    rewrite length_store_of, length_run_value, length_snapshot_locs, length_map. lia.
  - intros i nm l Hi. split; [|eapply lookup_lt_Some, Hi].
    destruct i as [|i]; simpl in Hi.
    + injection Hi as _ <-. lia.
    + apply snapshot_locs_lookup in Hi. lia.
Qed.

Lemma resolve_extend (h ext : heap) (hist : history) :
  Forall (fun e => (snd e < List.length h)%nat) hist ->
  resolve (h ++ ext) hist = resolve h hist.
Proof.
  induction 1 as [|e hist He _ IH]; simpl; [reflexivity|].
  rewrite IH. now rewrite lookup_app_l.
Qed.

Lemma layout_in_store (h h' : heap) (hist : history) :
  List.length h' = (List.length h + 2 * List.length hist)%nat ->
  (forall i nm l, hist !! i = Some (nm, l) ->
     l = (List.length h + 1 + 2 * i)%nat /\ (i < List.length hist)%nat) ->
  Forall (fun e => (snd e < List.length h')%nat) hist.
Proof.
  intros Hlen Hlay. apply Forall_lookup. intros i [nm l] Hi.
  destruct (Hlay i nm l Hi). simpl. lia.
Qed.

(** X7: the vectors recorded by a run are new dictionaries: each history
    entry points at a location that was not in the store before the run,
    hence not at the raw vector, and no two entries share a location. *)
Theorem history_entries_are_separate (self : simulation) (h : heap) (raw : dict Q) :
  h !! raw_wastewater self = Some raw ->
  covers raw parameters = true ->
  exists self' hist h',
    run_simulation self h = Ok ((self', hist), h')
    /\ (forall i nm l, hist !! i = Some (nm, l) ->
          h !! l = None /\ is_Some (h' !! l) /\ l <> raw_wastewater self)
    /\ (forall i j e1 e2, hist !! i = Some e1 -> hist !! j = Some e2 ->
          i <> j -> snd e1 <> snd e2).
Proof.
  intros Hl Hc.
  destruct (run_simulation_layout self h raw Hl Hc)
    as (hist & h' & Hrun & _ & _ & Hlen & Hlay).
  exists (set_history self hist), hist, h'. split; [exact Hrun|]. split.
  - intros i nm l Hi. destruct (Hlay i nm l Hi) as [-> Hlt].
    split; [apply lookup_ge_None_2; lia|].
    split; [apply lookup_lt_is_Some_2; lia|].
    apply lookup_lt_Some in Hl. lia.
  - intros i j [n1 l1] [n2 l2] Hi Hj Hne. simpl.
    destruct (Hlay i n1 l1 Hi) as [-> _]. destruct (Hlay j n2 l2 Hj) as [-> _]. lia.
Qed.

Lemma history_entries_are_separate_witness :
  exists self' hist h',
    run_simulation
      {| plan := 2; flow_rate := 200; hourly_flow := 200 / 24;
         raw_wastewater := 0%nat;
         effluent_limits := effluent_limits_literal;
         treatment_units := _initialize_treatment_units 2;
         concentration_history := [] |}
      [raw_wastewater_literal 2]
    = Ok ((self', hist), h')
    /\ map snd hist = [2; 4; 6; 8; 10; 12; 14]%nat.
Proof.
  destruct (history_entries_are_separate
              {| plan := 2; flow_rate := 200; hourly_flow := 200 / 24;
                 raw_wastewater := 0%nat;
                 effluent_limits := effluent_limits_literal;
                 treatment_units := _initialize_treatment_units 2;
                 concentration_history := [] |}
              [raw_wastewater_literal 2] (raw_wastewater_literal 2)
              eq_refl eq_refl)
    as (self' & hist & h' & Hrun & _).
  exists self', hist, h'. split; [exact Hrun|].
  vm_compute in Hrun. now injection Hrun as <- <- <-.
Defined.

(** X8: [run_simulation] can be called again on the same object: the
    second call replaces the history by one with the same names and the same
    vectors, held in new dictionaries, and the vectors recorded by the first
    call stay in the store unchanged. *)
Theorem rerun_reproduces_history (self : simulation) (h : heap) (raw : dict Q) :
  h !! raw_wastewater self = Some raw ->
  covers raw parameters = true ->
  exists self1 hist1 h1 self2 hist2 h2,
    run_simulation self h = Ok ((self1, hist1), h1)
    /\ run_simulation self1 h1 = Ok ((self2, hist2), h2)
    /\ concentration_history self2 = hist2
    /\ resolve h2 hist2 = resolve h1 hist1
    /\ resolve h2 hist1 = resolve h1 hist1
    /\ List.length hist2 = List.length hist1
    /\ (forall e1 e2, e1 ∈ hist1 -> e2 ∈ hist2 -> snd e1 <> snd e2).
Proof.
  intros Hl Hc.
  destruct (run_simulation_layout self h raw Hl Hc)
    as (hist1 & h1 & Hrun1 & Hres1 & [ext1 Hext1] & Hlen1 & Hlay1).
  assert (Hl1 : h1 !! raw_wastewater (set_history self hist1) = Some raw).
  { simpl. rewrite Hext1. now apply lookup_app_l_Some. }
  destruct (run_simulation_layout (set_history self hist1) h1 raw Hl1 Hc)
    as (hist2 & h2 & Hrun2 & Hres2 & [ext2 Hext2] & Hlen2 & Hlay2).
  cbn [plan treatment_units set_history] in Hres2.
  exists (set_history self hist1), hist1, h1,
         (set_history (set_history self hist1) hist2), hist2, h2.
  split; [exact Hrun1|]. split; [exact Hrun2|]. split; [reflexivity|].
  split; [now rewrite Hres2, Hres1|].
  split; [rewrite Hext2; apply resolve_extend, (layout_in_store h); assumption|].
  split.
  - apply (f_equal (@List.length _)) in Hres1, Hres2.
    unfold resolve in Hres1, Hres2. rewrite !length_map in Hres1, Hres2. congruence.
  - intros [n1 l1] [n2 l2] H1 H2. simpl.
    apply list_elem_of_lookup in H1 as [i Hi], H2 as [j Hj].
    destruct (Hlay1 i n1 l1 Hi) as [-> Hlt]. destruct (Hlay2 j n2 l2 Hj) as [-> _].
    lia.
Qed.

Lemma rerun_reproduces_history_witness :
  exists self1 hist1 h1 self2 hist2 h2,
    run_simulation
      {| plan := 1; flow_rate := 200; hourly_flow := 200 / 24;
         raw_wastewater := 0%nat;
         effluent_limits := effluent_limits_literal;
         treatment_units := _initialize_treatment_units 1;
         concentration_history := [] |}
      [raw_wastewater_literal 1]
    = Ok ((self1, hist1), h1)
    /\ run_simulation self1 h1 = Ok ((self2, hist2), h2)
    /\ resolve h2 hist2 = resolve h1 hist1.
Proof.
  destruct (rerun_reproduces_history
              {| plan := 1; flow_rate := 200; hourly_flow := 200 / 24;
                 raw_wastewater := 0%nat;
                 effluent_limits := effluent_limits_literal;
                 treatment_units := _initialize_treatment_units 1;
                 concentration_history := [] |}
              [raw_wastewater_literal 1] (raw_wastewater_literal 1)
              eq_refl eq_refl)
    as (self1 & hist1 & h1 & self2 & hist2 & h2 & Hrun1 & Hrun2 & _ & Hres & _).
  exists self1, hist1, h1, self2, hist2, h2.
  split; [exact Hrun1|]. split; [exact Hrun2|exact Hres].
Defined.

(** ** What every recorded vector satisfies *)

Lemma adjust_pH_nonneg (v : Q) : 0 <= v -> 0 <= _adjust_pH v.
Proof.
  intros Hv. unfold _adjust_pH, py_min, py_max.
  destruct (Qltb v 7); [destruct (Qltb 7.0 (v * 1.1)); lra|].
  destruct (Qltb 8 v); [|exact Hv].
  destruct (Qltb (v * 0.95) 7.5); lra.
Qed.

Lemma nonnegative_intro (d : dict Q) :
  distinct (keys d) = true ->
  (forall k v, dict_get k d = Some v -> 0 <= v) ->
  nonnegative d = true.
Proof.
  unfold nonnegative. induction d as [|[k v] d IH]; simpl; [reflexivity|].
  rewrite !andb_true_iff, negb_true_iff. intros [Hk Hd] Hall. split.
  - apply Qle_bool_iff. apply (Hall k). now rewrite String.eqb_refl.
  - apply IH; [exact Hd|]. intros k' v' Hget. apply (Hall k').
    destruct (String.eqb_spec k' k) as [->|_]; [|exact Hget].
    apply dict_get_Some_mem in Hget. rewrite dict_mem_keys in Hget. congruence.
Qed.

Lemma stage_value_get (plan : Z) (f : unit_function) (d : dict Q) (p : string) :
  p <> "pH" ->
  dict_get p (stage_value plan f d) = dict_get p (attenuate (removals_of plan f) d).
Proof.
  intros Hp. unfold stage_value. destruct f; try reflexivity.
  destruct (dict_get "pH" d); [|reflexivity].
  apply dict_get_set_ne. congruence.
Qed.

Lemma stage_value_pH (plan : Z) (f : unit_function) (d : dict Q) (v : Q) :
  dict_get "pH" d = Some v ->
  dict_get "pH" (stage_value plan f d)
  = Some (if plain_stage f then v else _adjust_pH v).
Proof.
  intros Hv. unfold stage_value.
  destruct f; simpl plain_stage;
    try (rewrite attenuate_get_absent by apply removals_no_pH; exact Hv).
  rewrite Hv. apply dict_get_set_eq.
Qed.

Lemma stage_value_bounds (plan : Z) (f : unit_function) (d : dict Q)
    (p : string) (v : Q) :
  p <> "pH" ->
  dict_get p d = Some v ->
  0 <= v ->
  exists v', dict_get p (stage_value plan f d) = Some v' /\ 0 <= v' /\ v' <= v.
Proof.
  intros Hp Hv Hpos. rewrite stage_value_get by exact Hp.
  apply attenuate_le; auto using removals_distinct, removals_fractions.
Qed.

Lemma well_formed_stage_value (plan : Z) (f : unit_function) (d : dict Q) :
  well_formed d = true -> well_formed (stage_value plan f d) = true.
Proof.
  unfold well_formed. rewrite !andb_true_iff. intros [[Hd Hc] Hn].
  assert (Hd' : distinct (keys (stage_value plan f d)) = true).
  { now rewrite keys_stage_value. }
  split; [split; [exact Hd'|now rewrite covers_stage_value]|].
  apply nonnegative_intro; [exact Hd'|].
  intros k v' Hget.
  destruct (dict_get k d) as [v|] eqn:Hv.
  - pose proof (nonnegative_get _ _ _ Hn Hv) as Hpos.
    destruct (String.eqb_spec k "pH") as [->|Hne].
    + rewrite (stage_value_pH _ _ _ _ Hv) in Hget. injection Hget as <-.
      destruct (plain_stage f); [exact Hpos|now apply adjust_pH_nonneg].
    + destruct (stage_value_bounds plan f d k v Hne Hv Hpos) as (w & Hw & Hw0 & _).
      congruence.
  - apply dict_get_None_mem in Hv.
    rewrite dict_mem_keys, <- (keys_stage_value plan f), <- dict_mem_keys in Hv.
    apply dict_get_None_mem in Hv. congruence.
Qed.

Lemma run_value_invariant (plan : Z) (units : list treatment_unit)
    (raw d : dict Q) :
  well_formed d = true ->
  keys d = keys raw ->
  (forall p v, p <> "pH" -> dict_get p raw = Some v ->
     exists v', dict_get p d = Some v' /\ 0 <= v' /\ v' <= v) ->
  Forall (fun e =>
            well_formed (snd e) = true
            /\ keys (snd e) = keys raw
            /\ (forall p v, p <> "pH" -> dict_get p raw = Some v ->
                  exists v', dict_get p (snd e) = Some v' /\ 0 <= v' /\ v' <= v))
         (run_value plan units d).
Proof.
  revert d. induction units as [|u rest IH]; intros d Hwf Hk Hle; simpl.
  - constructor.
  - assert (Hwf' : well_formed (stage_value plan (function u) d) = true)
      by now apply well_formed_stage_value.
    assert (Hk' : keys (stage_value plan (function u) d) = keys raw)
      by now rewrite keys_stage_value.
    assert (Hle' : forall p v, p <> "pH" -> dict_get p raw = Some v ->
              exists v', dict_get p (stage_value plan (function u) d) = Some v'
                         /\ 0 <= v' /\ v' <= v).
    { intros p v Hp Hv. destruct (Hle p v Hp Hv) as (w & Hw & Hw0 & Hwv).
      destruct (stage_value_bounds plan (function u) d p w Hp Hw Hw0)
        as (w' & Hw' & Hw'0 & Hw'w).
      exists w'. repeat split; try assumption. lra. }
    constructor; [simpl; auto|]. now apply IH.
Qed.

Lemma resolved_Forall (P : dict Q -> Prop) (h : heap) (hist : history)
    (entries : list (string * dict Q)) :
  resolve h hist = map (fun e => (fst e, Some (snd e))) entries ->
  Forall (fun e => P (snd e)) entries ->
  Forall (fun e => exists d, h !! snd e = Some d /\ P d) hist.
Proof.
  revert entries. induction hist as [|[nm l] hist IH]; intros entries Hres Hall.
  - constructor.
  - destruct entries as [|[nm' d] entries]; [discriminate|].
    simpl in Hres. injection Hres as _ Hl Hres.
    inversion Hall as [|? ? Hd Hrest]; subst.
    constructor; [exists d; auto|]. eapply IH; eassumption.
Qed.

(** X9: a run started from a well-formed raw vector records only
    well-formed vectors: each has the keys of the raw vector in the same
    order and no negative value, and each parameter other than pH lies
    between 0 and its raw value. *)
Theorem recorded_vectors_stay_in_range (self : simulation) (h : heap) (raw : dict Q) :
  h !! raw_wastewater self = Some raw ->
  well_formed raw = true ->
  exists self' hist h',
    run_simulation self h = Ok ((self', hist), h')
    /\ Forall (fun e => exists d,
                 h' !! snd e = Some d
                 /\ well_formed d = true
                 /\ keys d = keys raw
                 /\ (forall p v, p <> "pH" -> dict_get p raw = Some v ->
                       exists v', dict_get p d = Some v' /\ 0 <= v' /\ v' <= v))
              hist.
Proof.
  intros Hl Hwf.
  assert (Hparts := Hwf). unfold well_formed in Hparts.
  rewrite !andb_true_iff in Hparts. destruct Hparts as [[_ Hc] Hn].
  destruct (run_simulation_layout self h raw Hl Hc)
    as (hist & h' & Hrun & Hres & _).
  exists (set_history self hist), hist, h'. split; [exact Hrun|].
  refine (resolved_Forall _ _ _ _ Hres _).
  assert (Hraw : forall p v, p <> "pH" -> dict_get p raw = Some v ->
            exists v', dict_get p raw = Some v' /\ 0 <= v' /\ v' <= v).
  { intros p v _ Hv. exists v. repeat split; [exact Hv| |lra].
    eapply nonnegative_get; eassumption. }
  unfold history_value. constructor; [simpl; auto|].
  now apply run_value_invariant.
Qed.

Lemma recorded_vectors_stay_in_range_witness :
  exists self' hist h',
    run_simulation
      {| plan := 1; flow_rate := 200; hourly_flow := 200 / 24;
         raw_wastewater := 0%nat;
         effluent_limits := effluent_limits_literal;
         treatment_units := _initialize_treatment_units 1;
         concentration_history := [] |}
      [raw_wastewater_literal 1]
    = Ok ((self', hist), h')
    /\ List.length hist = 5%nat.
Proof.
  destruct (recorded_vectors_stay_in_range
              {| plan := 1; flow_rate := 200; hourly_flow := 200 / 24;
                 raw_wastewater := 0%nat;
                 effluent_limits := effluent_limits_literal;
                 treatment_units := _initialize_treatment_units 1;
                 concentration_history := [] |}
              [raw_wastewater_literal 1] (raw_wastewater_literal 1)
              eq_refl eq_refl)
    as (self' & hist & h' & Hrun & _).
  exists self', hist, h'. split; [exact Hrun|].
  vm_compute in Hrun. now injection Hrun as <- <- <-.
Defined.

(** ** The final vector *)

Lemma tables_list_parameters (plan : Z) (f : unit_function) (p : string) :
  mem p parameters = true ->
  p <> "pH" ->
  exists r, dict_get p (removals_of plan f) = Some r.
Proof.
  intros Hm Hp. apply mem_In in Hm. simpl in Hm.
  repeat destruct Hm as [<-|Hm]; try congruence; try contradiction;
    (destruct f; simpl; try destruct (plan =? 1)%Z; eexists; reflexivity).
Qed.

Lemma stage_value_scaled (plan : Z) (f : unit_function) (d : dict Q)
    (p : string) (v : Q) :
  mem p parameters = true ->
  p <> "pH" ->
  dict_get p d = Some v ->
  dict_get p (stage_value plan f d) = Some (v * (1 - fraction plan f p)).
Proof.
  intros Hm Hp Hv. rewrite stage_value_get by exact Hp.
  rewrite (attenuate_get _ _ _ v (removals_distinct _ _) Hv).
  unfold fraction. destruct (tables_list_parameters plan f p Hm Hp) as [r ->].
  reflexivity.
Qed.

Lemma final_value_scaled (plan : Z) (units : list treatment_unit) (d : dict Q)
    (p : string) (v : Q) :
  mem p parameters = true ->
  p <> "pH" ->
  dict_get p d = Some v ->
  dict_get p (final_value plan units d) = Some (scaled plan units p v).
Proof.
  intros Hm Hp. unfold final_value, scaled. revert d v.
  induction units as [|u rest IH]; intros d v Hv; simpl; [exact Hv|].
  apply IH. now apply stage_value_scaled.
Qed.

Lemma final_value_pH (plan : Z) (units : list treatment_unit) (d : dict Q) (v : Q) :
  dict_get "pH" d = Some v ->
  dict_get "pH" (final_value plan units d) = Some (pH_after units v).
Proof.
  unfold final_value, pH_after. revert d v.
  induction units as [|u rest IH]; intros d v Hv; simpl; [exact Hv|].
  apply IH. now apply stage_value_pH.
Qed.

Lemma run_reaches_final (self : simulation) (h : heap) (raw : dict Q) :
  h !! raw_wastewater self = Some raw ->
  covers raw parameters = true ->
  exists hist h' nm l,
    run_simulation self h = Ok ((set_history self hist, hist), h')
    /\ last hist = Some (nm, l)
    /\ h' !! l = Some (final_value (plan self) (treatment_units self) raw).
Proof.
  intros Hl Hc.
  destruct (run_simulation_layout self h raw Hl Hc)
    as (hist & h' & Hrun & Hres & _).
  destruct (last_resolved _ _ _ _ Hres (last_history_value _ _ _))
    as (nm & l & Hlast & Hfinal).
  now exists hist, h', nm, l.
Qed.

(** X10: after a run, the final value of a tracked parameter other than pH
    is its raw value multiplied, stage after stage in pipeline order, by one
    minus the fraction that stage's table gives it. *)
Theorem final_value_is_running_product (self : simulation) (h : heap)
    (raw : dict Q) (p : string) (v : Q) :
  h !! raw_wastewater self = Some raw ->
  covers raw parameters = true ->
  mem p parameters = true ->
  p <> "pH" ->
  dict_get p raw = Some v ->
  exists self' hist h' nm l final,
    run_simulation self h = Ok ((self', hist), h')
    /\ last hist = Some (nm, l)
    /\ h' !! l = Some final
    /\ dict_get p final
       = Some (fold_left
                 (fun acc unit =>
                    acc * (1 - default 0 (dict_get p (removals_of (plan self)
                                                        (function unit)))))
                 (treatment_units self) v).
Proof.
  intros Hl Hc Hm Hp Hv.
  destruct (run_reaches_final self h raw Hl Hc)
    as (hist & h' & nm & l & Hrun & Hlast & Hfinal).
  eexists (set_history self hist), hist, h', nm, l, _.
  split; [exact Hrun|]. split; [exact Hlast|]. split; [exact Hfinal|].
  now apply final_value_scaled.
Qed.

Lemma final_value_is_running_product_witness :
  exists self' hist h' nm l final,
    run_simulation
      {| plan := 2; flow_rate := 200; hourly_flow := 200 / 24;
         raw_wastewater := 0%nat;
         effluent_limits := effluent_limits_literal;
         treatment_units := _initialize_treatment_units 2;
         concentration_history := [] |}
      [raw_wastewater_literal 2]
    = Ok ((self', hist), h')
    /\ last hist = Some (nm, l)
    /\ h' !! l = Some final
    /\ dict_get "COD" final
       = Some (1552 * (1 - 0.0) * (1 - 0.30) * (1 - 0.15) * (1 - 0.35)
                 * (1 - 0.725) * (1 - 0.10)).
Proof.
  apply (final_value_is_running_product
           {| plan := 2; flow_rate := 200; hourly_flow := 200 / 24;
              raw_wastewater := 0%nat;
              effluent_limits := effluent_limits_literal;
              treatment_units := _initialize_treatment_units 2;
              concentration_history := [] |}
           [raw_wastewater_literal 2] (raw_wastewater_literal 2) "COD" 1552);
    try reflexivity.
  discriminate.
Defined.

(** X11: the pH at the end of a run is the raw pH with the pH rule applied
    once per electrocoagulation stage of the pipeline; for the pipelines the
    constructor builds that is exactly one application, whatever the
    selector. *)
Theorem final_pH_is_adjusted_raw_pH (self : simulation) (h : heap)
    (raw : dict Q) (v : Q) :
  h !! raw_wastewater self = Some raw ->
  covers raw parameters = true ->
  dict_get "pH" raw = Some v ->
  exists self' hist h' nm l final,
    run_simulation self h = Ok ((self', hist), h')
    /\ last hist = Some (nm, l)
    /\ h' !! l = Some final
    /\ dict_get "pH" final = Some (pH_after (treatment_units self) v)
    /\ (forall p, pH_after (_initialize_treatment_units p) v = _adjust_pH v).
Proof.
  intros Hl Hc Hv.
  destruct (run_reaches_final self h raw Hl Hc)
    as (hist & h' & nm & l & Hrun & Hlast & Hfinal).
  eexists (set_history self hist), hist, h', nm, l, _.
  split; [exact Hrun|]. split; [exact Hlast|]. split; [exact Hfinal|].
  split; [now apply final_value_pH|].
  intros p. unfold _initialize_treatment_units. now destruct (p =? 1)%Z.
Qed.

Lemma final_pH_is_adjusted_raw_pH_witness :
  exists self' hist h' nm l final,
    run_simulation
      {| plan := 1; flow_rate := 200; hourly_flow := 200 / 24;
         raw_wastewater := 0%nat;
         effluent_limits := effluent_limits_literal;
         treatment_units := _initialize_treatment_units 1;
         concentration_history := [] |}
      [dict_set "pH" 9 (raw_wastewater_literal 1)]
    = Ok ((self', hist), h')
    /\ last hist = Some (nm, l)
    /\ h' !! l = Some final
    /\ dict_get "pH" final = Some (_adjust_pH 9).
Proof.
  destruct (final_pH_is_adjusted_raw_pH
              {| plan := 1; flow_rate := 200; hourly_flow := 200 / 24;
                 raw_wastewater := 0%nat;
                 effluent_limits := effluent_limits_literal;
                 treatment_units := _initialize_treatment_units 1;
                 concentration_history := [] |}
              [dict_set "pH" 9 (raw_wastewater_literal 1)]
              (dict_set "pH" 9 (raw_wastewater_literal 1)) 9
              eq_refl eq_refl eq_refl)
    as (self' & hist & h' & nm & l & final & Hrun & Hlast & Hfinal & HpH & _).
  exists self', hist, h', nm, l, final.
  split; [exact Hrun|]. split; [exact Hlast|]. split; [exact Hfinal|exact HpH].
Defined.

(** ** Several objects, and selectors other than 1 and 2 *)

(** X12: two objects in one store do not interfere: running the first
    leaves the second's run to record the same names and vectors it would
    have recorded alone, and running the second leaves the first's recorded
    vectors unchanged. *)
Theorem simulations_are_independent (a b : simulation) (h : heap)
    (raw_a raw_b : dict Q) :
  h !! raw_wastewater a = Some raw_a ->
  covers raw_a parameters = true ->
  h !! raw_wastewater b = Some raw_b ->
  covers raw_b parameters = true ->
  exists a' hist_a h_a b' hist_b h_ab b0 hist_b0 h_b,
    run_simulation a h = Ok ((a', hist_a), h_a)
    /\ run_simulation b h_a = Ok ((b', hist_b), h_ab)
    /\ run_simulation b h = Ok ((b0, hist_b0), h_b)
    /\ resolve h_ab hist_b = resolve h_b hist_b0
    /\ resolve h_ab hist_a = resolve h_a hist_a
    /\ h_ab !! raw_wastewater a = Some raw_a
    /\ h_ab !! raw_wastewater b = Some raw_b.
Proof.
  intros Ha Hca Hb Hcb.
  destruct (run_simulation_layout a h raw_a Ha Hca)
    as (hist_a & h_a & Hrun_a & _ & [ext_a Hext_a] & Hlen_a & Hlay_a).
  assert (Hb' : h_a !! raw_wastewater b = Some raw_b).
  { rewrite Hext_a. now apply lookup_app_l_Some. }
  destruct (run_simulation_layout b h_a raw_b Hb' Hcb)
    as (hist_b & h_ab & Hrun_b & Hres_b & [ext_b Hext_b] & _ & _).
  destruct (run_simulation_layout b h raw_b Hb Hcb)
    as (hist_b0 & h_b & Hrun_b0 & Hres_b0 & _).
  exists (set_history a hist_a), hist_a, h_a,
         (set_history b hist_b), hist_b, h_ab,
         (set_history b hist_b0), hist_b0, h_b.
  split; [exact Hrun_a|]. split; [exact Hrun_b|]. split; [exact Hrun_b0|].
  split; [now rewrite Hres_b, Hres_b0|].
  split; [rewrite Hext_b; apply resolve_extend, (layout_in_store h); assumption|].
  split; rewrite Hext_b; apply lookup_app_l_Some; [|exact Hb'].
  rewrite Hext_a. now apply lookup_app_l_Some.
Qed.

Lemma simulations_are_independent_witness :
  exists a' hist_a h_a b' hist_b h_ab b0 hist_b0 h_b,
    run_simulation
      {| plan := 1; flow_rate := 200; hourly_flow := 200 / 24;
         raw_wastewater := 0%nat;
         effluent_limits := effluent_limits_literal;
         treatment_units := _initialize_treatment_units 1;
         concentration_history := [] |}
      [raw_wastewater_literal 1; raw_wastewater_literal 2]
    = Ok ((a', hist_a), h_a)
    /\ run_simulation
         {| plan := 2; flow_rate := 200; hourly_flow := 200 / 24;
            raw_wastewater := 1%nat;
            effluent_limits := effluent_limits_literal;
            treatment_units := _initialize_treatment_units 2;
            concentration_history := [] |}
         h_a
       = Ok ((b', hist_b), h_ab)
    /\ run_simulation
         {| plan := 2; flow_rate := 200; hourly_flow := 200 / 24;
            raw_wastewater := 1%nat;
            effluent_limits := effluent_limits_literal;
            treatment_units := _initialize_treatment_units 2;
            concentration_history := [] |}
         [raw_wastewater_literal 1; raw_wastewater_literal 2]
       = Ok ((b0, hist_b0), h_b)
    /\ resolve h_ab hist_b = resolve h_b hist_b0.
Proof.
  destruct (simulations_are_independent
              {| plan := 1; flow_rate := 200; hourly_flow := 200 / 24;
                 raw_wastewater := 0%nat;
                 effluent_limits := effluent_limits_literal;
                 treatment_units := _initialize_treatment_units 1;
                 concentration_history := [] |}
              {| plan := 2; flow_rate := 200; hourly_flow := 200 / 24;
                 raw_wastewater := 1%nat;
                 effluent_limits := effluent_limits_literal;
                 treatment_units := _initialize_treatment_units 2;
                 concentration_history := [] |}
              [raw_wastewater_literal 1; raw_wastewater_literal 2]
              (raw_wastewater_literal 1) (raw_wastewater_literal 2)
              eq_refl eq_refl eq_refl eq_refl)
    as (a' & hist_a & h_a & b' & hist_b & h_ab & b0 & hist_b0 & h_b
        & H1 & H2 & H3 & H4 & _).
  exists a', hist_a, h_a, b', hist_b, h_ab, b0, hist_b0, h_b.
  split; [exact H1|]. split; [exact H2|]. split; [exact H3|exact H4].
Defined.

Lemma run_value_selected (p : Z) (units : list treatment_unit) (d : dict Q) :
  run_value p units d = run_value (selected p) units d.
Proof.
  revert d. induction units as [|u rest IH]; intros d; simpl; [reflexivity|].
  now rewrite IH, stage_value_selected.
Qed.

Lemma selected_other (p : Z) : p <> 1%Z -> selected p = 2%Z.
Proof.
  intros Hp. unfold selected. destruct (Z.eqb_spec p 1); [contradiction|reflexivity].
Qed.

(** A run and an evaluation depend on the plan field only through the
    question whether it equals 1. *)
Lemma evaluate_fresh_selected (self : simulation) (h : heap) (raw : dict Q) :
  concentration_history self = [] ->
  h !! raw_wastewater self = Some raw ->
  covers raw parameters = true ->
  let hist := ("Raw Wastewater", S (List.length h))
              :: snapshot_locs (S (S (List.length h)))
                   (map name (treatment_units self)) in
  evaluate_compliance self h
  = Ok ((set_history self hist,
         compliance_loop (effluent_limits self)
           (final_value (selected (plan self)) (treatment_units self) raw) []),
        h ++ raw :: raw
          :: store_of (run_value (selected (plan self)) (treatment_units self) raw)).
Proof.
  intros Hempty Hl Hc hist.
  destruct (evaluate_fresh self h raw Hempty Hl Hc)
    as (hist' & h' & nm & l & Hrun & _ & _ & Heval & _).
  pose proof (run_simulation_spec self h raw Hl Hc) as Hspec. cbv zeta in Hspec.
  rewrite Hspec in Hrun.
  assert (Hparts : hist' = hist
                   /\ h' = h ++ raw :: raw
                           :: store_of (run_value (plan self) (treatment_units self) raw)).
  { now inversion Hrun. }
  destruct Hparts as [-> ->]. rewrite Heval.
  now rewrite <- final_value_selected, <- run_value_selected.
Qed.

(** X13: a selector other than 1 gives Plan 2 throughout, not only at
    construction: from the same store, the object built with such a selector
    and the object built with selector 2 hold the same raw vector, and
    evaluating them yields the same record, the same history and the same
    store. *)
Theorem other_selectors_run_plan_2 (p : Z) (h : heap) :
  p <> 1%Z ->
  exists s s2 h1 s' s2' r h',
    __init__ p h = Ok (s, h1)
    /\ __init__ 2 h = Ok (s2, h1)
    /\ evaluate_compliance s h1 = Ok ((s', r), h')
    /\ evaluate_compliance s2 h1 = Ok ((s2', r), h')
    /\ concentration_history s' = concentration_history s2'
    /\ List.length (concentration_history s') = 7%nat.
Proof.
  intros Hp. pose proof (selected_other p Hp) as Hsel.
  pose proof (init_spec p h) as Hinit. pose proof (init_spec 2 h) as Hinit2.
  rewrite raw_selected, units_selected, Hsel in Hinit.
  set (raw := raw_wastewater_literal 2) in *.
  set (s := {| plan := p; flow_rate := 200; hourly_flow := 200 / 24;
               raw_wastewater := List.length h;
               effluent_limits := effluent_limits_literal;
               treatment_units := _initialize_treatment_units 2;
               concentration_history := [] |}) in *.
  set (s2 := {| plan := 2; flow_rate := 200; hourly_flow := 200 / 24;
                raw_wastewater := List.length h;
                effluent_limits := effluent_limits_literal;
                treatment_units := _initialize_treatment_units 2;
                concentration_history := [] |}) in *.
  pose proof (evaluate_fresh_selected s (h ++ [raw]) raw eq_refl
                (lookup_new_slot h raw) (raw_covers 2)) as He.
  pose proof (evaluate_fresh_selected s2 (h ++ [raw]) raw eq_refl
                (lookup_new_slot h raw) (raw_covers 2)) as He2.
  cbv zeta in He, He2. cbn [plan treatment_units effluent_limits s s2] in He, He2.
  rewrite Hsel in He. change (selected 2) with 2%Z in He2.
  eexists s, s2, _, _, _, _, _.
  split; [exact Hinit|]. split; [exact Hinit2|].
  split; [exact He|]. split; [exact He2|]. split; reflexivity.
Qed.

Lemma other_selectors_run_plan_2_witness :
  exists s s2 h1 s' s2' r h',
    __init__ 7 [] = Ok (s, h1)
    /\ __init__ 2 [] = Ok (s2, h1)
    /\ evaluate_compliance s h1 = Ok ((s', r), h')
    /\ evaluate_compliance s2 h1 = Ok ((s2', r), h')
    /\ concentration_history s' = concentration_history s2'
    /\ List.length (concentration_history s') = 7%nat.
Proof. apply (other_selectors_run_plan_2 7 []). discriminate. Defined.

(** * The program over an arbitrary arithmetic

    The facts that relate the store-level program to its value-level reading
    use no property of the numbers; they are proved here once more for
    [Generic], so that they are available in binary64. *)

Section GenericProgram.
Context {N : Type} {A : arithmetic N}.

Lemma generic_keys_attenuate (removals : dict Q) (d : dict N) :
  keys (Generic.attenuate removals d) = keys d.
Proof.
  revert d. induction removals as [|[p r] rest IH]; intros d; simpl.
  - reflexivity.
  - rewrite IH. destruct (dict_get p d) eqn:E; [|reflexivity].
    apply keys_set_present. eapply dict_get_Some_mem, E.
Qed.

Lemma generic_keys_stage_value (plan : Z) (f : unit_function) (d : dict N) :
  keys (Generic.stage_value plan f d) = keys d.
Proof.
  unfold Generic.stage_value.
  destruct f; try apply generic_keys_attenuate.
  destruct (dict_get "pH" d) eqn:E; [|apply generic_keys_attenuate].
  rewrite keys_set_present; [apply generic_keys_attenuate|].
  rewrite dict_mem_keys, generic_keys_attenuate, <- dict_mem_keys.
  eapply dict_get_Some_mem, E.
Qed.

Lemma generic_bind_Ok {T U} (m : Generic.M T) (k : T -> Generic.M U)
    (h h' : list (dict N)) (a : T) :
  m h = Ok (a, h') -> Generic.bind m k h = k a h'.
Proof. unfold Generic.bind. now intros ->. Qed.

Lemma generic_imul_spec (l : loc) (k : string) (x v : N) (h : list (dict N))
    (d : dict N) :
  h !! l = Some d -> dict_get k d = Some v ->
  Generic.imul l k x h = Ok (tt, <[l := dict_set k (times v x) d]> h).
Proof.
  intros Hl Hk. unfold Generic.imul, Generic.bind, Generic.getitem, Generic.setitem.
  now rewrite Hl, Hk, Hl.
Qed.

Lemma generic_loop_spec (removals : dict Q) (l : loc) (h : list (dict N))
    (d : dict N) :
  h !! l = Some d ->
  covers d (keys removals) = true ->
  Generic.for_items removals
    (fun param removal => Generic.imul l param (minus (literal 1) (literal removal))) h
  = Ok (tt, <[l := Generic.attenuate removals d]> h).
Proof.
  revert h d. induction removals as [|[p r] rest IH]; intros h d Hl Hc; simpl.
  - unfold Generic.ret. now rewrite list_insert_id.
  - simpl in Hc. apply andb_true_iff in Hc as [Hp Hc].
    unfold dict_mem in Hp. destruct (dict_get p d) as [v|] eqn:Hv; [|discriminate].
    rewrite (generic_bind_Ok _ _ _ _ _
               (generic_imul_spec l p (minus (literal 1) (literal r)) v h d Hl Hv)).
    rewrite (IH _ (dict_set p (times v (minus (literal 1) (literal r))) d)).
    + now rewrite list_insert_insert_eq.
    + apply list_lookup_insert_eq. eapply lookup_lt_Some, Hl.
    + rewrite (covers_keys _ d); [exact Hc|].
      apply keys_set_present. eapply dict_get_Some_mem, Hv.
Qed.

Lemma generic_insert_new_slot (h : list (dict N)) (d d' : dict N) :
  <[List.length h := d']> (h ++ [d]) = h ++ [d'].
Proof.
  rewrite insert_app_r_alt by lia. now rewrite Nat.sub_diag.
Qed.

Lemma generic_lookup_new_slot (h : list (dict N)) (d : dict N) :
  (h ++ [d]) !! List.length h = Some d.
Proof. rewrite lookup_app_r by lia. now rewrite Nat.sub_diag. Qed.

Lemma generic_call_spec (self : simulation) (f : unit_function) (l : loc)
    (h : list (dict N)) (d : dict N) :
  h !! l = Some d ->
  covers d parameters = true ->
  Generic.call self f l h
  = Ok (List.length h, h ++ [Generic.stage_value (plan self) f d]).
Proof.
  intros Hl Hc.
  assert (Hloop : Generic.for_items (removals_of (plan self) f)
            (fun param removal =>
               Generic.imul (List.length h) param (minus (literal 1) (literal removal)))
            (h ++ [d])
          = Ok (tt, h ++ [Generic.attenuate (removals_of (plan self) f) d])).
  { rewrite (generic_loop_spec _ _ _ d); [now rewrite generic_insert_new_slot| |].
    - apply generic_lookup_new_slot.
    - eapply covers_sub; [exact Hc|apply removals_tracked]. }
  destruct (plain_stage f) eqn:Hf.
  - assert (Hbody : Generic.call self f
                    = Generic.apply_removals (removals_of (plan self) f)).
    { destruct f; try reflexivity. discriminate. }
    rewrite Hbody. unfold Generic.apply_removals.
    unfold Generic.bind at 1. unfold Generic.dict_copy. rewrite Hl.
    rewrite (generic_bind_Ok _ _ _ _ _ Hloop). unfold Generic.ret.
    now destruct f.
  - destruct f; try discriminate.
    assert (HpH : dict_mem "pH" d = true).
    { apply (proj1 (covers_spec d parameters) Hc). simpl. now left. }
    unfold dict_mem in HpH.
    destruct (dict_get "pH" d) as [v|] eqn:Hv; [|discriminate].
    change (Generic.call self Electrocoagulation)
      with (Generic.electrocoagulation self).
    unfold Generic.electrocoagulation, Generic.stage_value. rewrite Hv.
    change (if (plan self =? 1)%Z then electrocoagulation_plan1_removals
            else electrocoagulation_plan2_removals)
      with (removals_of (plan self) Electrocoagulation).
    unfold Generic.bind at 1. unfold Generic.dict_copy. rewrite Hl.
    rewrite (generic_bind_Ok _ _ _ _ _ Hloop).
    unfold Generic.bind, Generic.getitem, Generic.setitem, Generic.ret.
    rewrite lookup_app_l by (eapply lookup_lt_Some, Hl).
    rewrite Hl, Hv, generic_lookup_new_slot. now rewrite generic_insert_new_slot.
Qed.

Lemma generic_names_run_value (plan : Z) (units : list treatment_unit) (d : dict N) :
  map fst (Generic.run_value plan units d) = map name units.
Proof.
  revert d. induction units as [|u rest IH]; intros d; simpl; [reflexivity|].
  now rewrite IH.
Qed.

Lemma generic_run_units_spec (units : list treatment_unit) (self : simulation)
    (cur : loc) (h : list (dict N)) (d : dict N) :
  h !! cur = Some d ->
  covers d parameters = true ->
  Generic.run_units units self cur h
  = Ok (set_history self
          (concentration_history self
             ++ snapshot_locs (List.length h) (map name units)),
        h ++ Generic.store_of (Generic.run_value (plan self) units d)).
Proof.
  revert self cur h d.
  induction units as [|u rest IH]; intros self cur h d Hl Hc; simpl.
  - unfold Generic.ret. rewrite !app_nil_r. now destruct self.
  - rewrite (generic_bind_Ok _ _ _ _ _
               (generic_call_spec self (function u) cur h d Hl Hc)).
    set (d' := Generic.stage_value (plan self) (function u) d).
    unfold Generic.bind at 1. unfold Generic.dict_copy.
    rewrite generic_lookup_new_slot.
    rewrite (IH _ _ _ d').
    + rewrite !length_app. simpl.
      replace (List.length h + 1 + 1)%nat with (S (S (List.length h))) by lia.
      replace (List.length h + 1)%nat with (S (List.length h)) by lia.
      unfold append_history, set_history. simpl.
      now rewrite <- !app_assoc.
    + rewrite lookup_app_l by (rewrite length_app; simpl; lia).
      apply generic_lookup_new_slot.
    + unfold d'. rewrite (covers_keys _ d); [exact Hc|].
      apply generic_keys_stage_value.
Qed.

Lemma generic_run_simulation_spec (self : simulation) (h : list (dict N))
    (raw : dict N) :
  h !! raw_wastewater self = Some raw ->
  covers raw parameters = true ->
  let hist := ("Raw Wastewater", S (List.length h))
              :: snapshot_locs (S (S (List.length h)))
                   (map name (treatment_units self)) in
  Generic.run_simulation self h
  = Ok ((set_history self hist, hist),
        h ++ raw :: raw
          :: Generic.store_of
               (Generic.run_value (plan self) (treatment_units self) raw)).
Proof.
  intros Hl Hc hist. unfold Generic.run_simulation.
  unfold Generic.bind at 1. unfold Generic.dict_copy at 1. rewrite Hl.
  unfold Generic.bind at 1. unfold Generic.dict_copy at 1.
  rewrite generic_lookup_new_slot.
  erewrite generic_bind_Ok.
  2:{ apply (generic_run_units_spec _ _ _ _ raw); [|exact Hc].
      rewrite lookup_app_l by (rewrite length_app; simpl; lia).
      apply generic_lookup_new_slot. }
  unfold Generic.ret. simpl. rewrite !length_app. simpl.
  replace (List.length h + 1 + 1)%nat with (S (S (List.length h))) by lia.
  replace (List.length h + 1)%nat with (S (List.length h)) by lia.
  now rewrite <- !app_assoc.
Qed.

Lemma generic_resolve_snapshots (h0 : list (dict N))
    (entries : list (string * dict N)) (ext : list (dict N)) :
  Generic.resolve (h0 ++ Generic.store_of entries ++ ext)
                  (snapshot_locs (List.length h0) (map fst entries))
  = map (fun e => (fst e, Some (snd e))) entries.
Proof.
  revert h0. induction entries as [|[nm d] rest IH]; intros h0; simpl.
  - reflexivity.
  - f_equal.
    + f_equal. rewrite lookup_app_r by lia.
      replace (S (List.length h0) - List.length h0)%nat with 1%nat by lia.
      reflexivity.
    + specialize (IH (h0 ++ [d; d])).
      rewrite length_app in IH. simpl in IH.
      replace (List.length h0 + 2)%nat with (S (S (List.length h0))) in IH by lia.
      rewrite <- IH. f_equal. now rewrite <- app_assoc.
Qed.

Lemma generic_last_history_value (plan : Z) (units : list treatment_unit)
    (d : dict N) :
  option_map snd (last (Generic.history_value plan units d))
  = Some (Generic.final_value plan units d).
Proof.
  unfold Generic.history_value, Generic.final_value.
  generalize "Raw Wastewater" as nm.
  revert d. induction units as [|u rest IH]; intros d nm.
  - reflexivity.
  - change (Generic.run_value plan (u :: rest) d)
      with ((name u, Generic.stage_value plan (function u) d)
              :: Generic.run_value plan rest
                   (Generic.stage_value plan (function u) d)).
    rewrite last_cons_cons. apply IH.
Qed.

Lemma generic_resolve_run_simulation (self : simulation) (h : list (dict N))
    (raw : dict N) :
  let hist := ("Raw Wastewater", S (List.length h))
              :: snapshot_locs (S (S (List.length h)))
                   (map name (treatment_units self)) in
  let h' := h ++ raw :: raw
              :: Generic.store_of
                   (Generic.run_value (plan self) (treatment_units self) raw) in
  Generic.resolve h' hist
  = map (fun e => (fst e, Some (snd e)))
        (Generic.history_value (plan self) (treatment_units self) raw).
Proof.
  intros hist h'. unfold hist, h', Generic.history_value. simpl. f_equal.
  - f_equal. rewrite lookup_app_r by lia.
    replace (S (List.length h) - List.length h)%nat with 1%nat by lia.
    reflexivity.
  - pose proof (generic_resolve_snapshots (h ++ [raw; raw])
                  (Generic.run_value (plan self) (treatment_units self) raw) []) as R.
    rewrite length_app, app_nil_r, generic_names_run_value in R. simpl in R.
    replace (List.length h + 2)%nat with (S (S (List.length h))) in R by lia.
    rewrite <- R. f_equal. now rewrite <- app_assoc.
Qed.

Lemma generic_last_resolved (h : list (dict N)) (hist : history)
    (entries : list (string * dict N)) (final : dict N) :
  Generic.resolve h hist = map (fun e => (fst e, Some (snd e))) entries ->
  option_map snd (last entries) = Some final ->
  exists nm l, last hist = Some (nm, l) /\ h !! l = Some final.
Proof.
  intros R L. apply (f_equal last) in R. unfold Generic.resolve in R.
  rewrite !last_map in R.
  destruct (last entries) as [[nm' d]|]; [|discriminate].
  simpl in L. injection L as ->.
  destruct (last hist) as [[nm l]|]; [|discriminate].
  simpl in R. injection R as _ R. now exists nm, l.
Qed.

Lemma generic_evaluate_present (self : simulation) (h : list (dict N))
    (nm : string) (l : loc) (final : dict N) :
  last (concentration_history self) = Some (nm, l) ->
  h !! l = Some final ->
  Generic.evaluate_compliance self h
  = Ok ((self, Generic.compliance_loop (effluent_limits self) final []), h).
Proof.
  intros Hlast Hl. unfold Generic.evaluate_compliance.
  destruct (concentration_history self) as [|e hist] eqn:Eh; [discriminate|].
  unfold Generic.bind at 1. unfold Generic.ret at 1. rewrite Eh.
  unfold Generic.bind, Generic.last_entry. rewrite Hlast.
  unfold Generic.ret, Generic.dict_items. simpl.
  now rewrite Hl.
Qed.

(** Without a history, the evaluator is one run followed by the reading of
    the final vector. *)
Lemma generic_evaluate_fresh (self : simulation) (h : list (dict N)) (raw : dict N) :
  concentration_history self = [] ->
  h !! raw_wastewater self = Some raw ->
  covers raw parameters = true ->
  exists hist' h' nm l,
    Generic.run_simulation self h = Ok ((set_history self hist', hist'), h')
    /\ last hist' = Some (nm, l)
    /\ h' !! l = Some (Generic.final_value (plan self) (treatment_units self) raw)
    /\ Generic.evaluate_compliance self h
       = Ok ((set_history self hist',
              Generic.compliance_loop (effluent_limits self)
                (Generic.final_value (plan self) (treatment_units self) raw) []), h').
Proof.
  intros Hempty Hl Hc.
  pose proof (generic_run_simulation_spec self h raw Hl Hc) as Hrun.
  pose proof (generic_resolve_run_simulation self h raw) as Hres.
  cbv zeta in Hrun, Hres.
  set (hist := ("Raw Wastewater", S (List.length h))
               :: snapshot_locs (S (S (List.length h)))
                    (map name (treatment_units self))) in *.
  set (h' := h ++ raw :: raw
               :: Generic.store_of
                    (Generic.run_value (plan self) (treatment_units self) raw)) in *.
  destruct (generic_last_resolved _ _ _ _ Hres (generic_last_history_value _ _ _))
    as (nm & l & Hlast & Hfinal).
  assert (Hsecond : Generic.evaluate_compliance (set_history self hist) h'
            = Ok ((set_history self hist,
                   Generic.compliance_loop (effluent_limits self)
                     (Generic.final_value (plan self) (treatment_units self) raw) []),
                  h')).
  { apply (generic_evaluate_present (set_history self hist) h' nm l); assumption. }
  exists hist, h', nm, l.
  repeat split; try assumption.
  unfold Generic.evaluate_compliance. rewrite Hempty.
  unfold Generic.bind at 1. unfold Generic.bind at 1. rewrite Hrun.
  unfold Generic.ret at 1. simpl.
  unfold Generic.evaluate_compliance in Hsecond. simpl in Hsecond.
  unfold Generic.bind at 1 in Hsecond. unfold Generic.ret at 1 in Hsecond.
  exact Hsecond.
Qed.

(** Constructing an object and evaluating it, from any store. *)
Lemma generic_evaluate_constructed (p : Z) (h : list (dict N)) :
  let raw := Generic.raw_vector p in
  let final := Generic.final_value p (_initialize_treatment_units p) raw in
  exists s s' h' nm l,
    Generic.__init__ p h = Ok (s, h ++ [raw])
    /\ Generic.evaluate_compliance s (h ++ [raw])
       = Ok ((s', Generic.compliance_loop effluent_limits_literal final []), h')
    /\ last (concentration_history s') = Some (nm, l)
    /\ h' !! l = Some final.
Proof.
  intros raw final.
  set (s := {| plan := p; flow_rate := 200; hourly_flow := 200 / 24;
               raw_wastewater := List.length h;
               effluent_limits := effluent_limits_literal;
               treatment_units := _initialize_treatment_units p;
               concentration_history := [] |}).
  assert (Hc : covers raw parameters = true).
  { unfold raw, Generic.raw_vector, covers.
    apply forallb_forall. intros k Hk. rewrite dict_mem_keys. unfold keys.
    rewrite map_map. simpl.
    change (mem k (keys (raw_wastewater_literal p)) = true).
    rewrite <- dict_mem_keys.
    exact (proj1 (covers_spec _ _) (raw_covers p) k Hk). }
  destruct (generic_evaluate_fresh s (h ++ [raw]) raw eq_refl
              (generic_lookup_new_slot h raw) Hc)
    as (hist' & h' & nm & l & _ & Hlast & Hfinal & Heval).
  exists s, (set_history s hist'), h', nm, l.
  repeat split; assumption.
Qed.

End GenericProgram.

(** ** The two readings agree on the program *)

(** At [exact] the generic program is the program of the first part. *)
Lemma exact_reading :
  @Generic.__init__ Q exact = __init__
  /\ @Generic.call Q exact = call
  /\ @Generic.run_simulation Q exact = run_simulation
  /\ @Generic.evaluate_compliance Q exact = evaluate_compliance.
Proof. repeat split. Qed.

(** ** Plan 1's final BOD in binary64 *)

(** C7 (as stated, refuted): in binary64, constructing Plan 1 in an empty
    store and evaluating it leaves a final BOD that stands for the rational
    [474903/3200 + 9/439804651110400]: it exceeds the real product
    [1025 * (1-0.025) * (1-0.325) * (1-0.725) * (1-0.20) = 474903/3200]. *)
Lemma plan1_BOD_exceeds_real_product :
  exists s h1 s' r h' nm l final v q,
    Generic.__init__ (A := binary64) 1 [] = Ok (s, h1)
    /\ Generic.evaluate_compliance s h1 = Ok ((s', r), h')
    /\ last (concentration_history s') = Some (nm, l)
    /\ h' !! l = Some final
    /\ dict_get "BOD" final = Some v
    /\ Q_of_float v = Some q
    /\ q == 1025 * (1 - 0.025) * (1 - 0.325) * (1 - 0.725) * (1 - 0.20)
            + (9 # 439804651110400)
    /\ ~ q <= 1025 * (1 - 0.025) * (1 - 0.325) * (1 - 0.725) * (1 - 0.20).
Proof.
  eexists _, _, _, _, _, _, _, _, _, _.
  split; [reflexivity|].
  split; [vm_compute; reflexivity|].
  split; [reflexivity|].
  split; [reflexivity|].
  split; [vm_compute; reflexivity|].
  split; [vm_compute; reflexivity|].
  split; [vm_compute; reflexivity|].
  vm_compute. intros Hle. now apply Hle.
Qed.

(** C7 (amended): in binary64, from any store, constructing Plan 1 and
    evaluating it runs the pipeline on the raw vector with BOD 1025, and the
    final BOD is the product [1025 * (1-0.025) * (1-0.325) * (1-0.725) *
    (1-0.20)] computed in binary64 from left to right, as the stages compute
    it (so it does not exceed that product so computed); the record marks BOD
    as passing iff that value is at most 30, which it is not. *)
Theorem plan1_final_BOD_binary64 (h : list (dict PrimFloat.float)) :
  exists s h1 s' r h' nm l final v b,
    Generic.__init__ 1 h = Ok (s, h1)
    /\ Generic.evaluate_compliance s h1 = Ok ((s', r), h')
    /\ last (concentration_history s') = Some (nm, l)
    /\ h' !! l = Some final
    /\ dict_get "BOD" (Generic.raw_vector 1) = Some (literal64 1025)
    /\ dict_get "BOD" final = Some v
    /\ v = PrimFloat.mul
             (PrimFloat.mul
                (PrimFloat.mul
                   (PrimFloat.mul (literal64 1025)
                      (PrimFloat.sub (literal64 1) (literal64 0.025)))
                   (PrimFloat.sub (literal64 1) (literal64 0.325)))
                (PrimFloat.sub (literal64 1) (literal64 0.725)))
             (PrimFloat.sub (literal64 1) (literal64 0.20))
    /\ PrimFloat.leb v
         (PrimFloat.mul
            (PrimFloat.mul
               (PrimFloat.mul
                  (PrimFloat.mul (literal64 1025)
                     (PrimFloat.sub (literal64 1) (literal64 0.025)))
                  (PrimFloat.sub (literal64 1) (literal64 0.325)))
               (PrimFloat.sub (literal64 1) (literal64 0.725)))
            (PrimFloat.sub (literal64 1) (literal64 0.20))) = true
    /\ dict_get "BOD" r = Some (v, b)
    /\ (b = true <-> PrimFloat.leb v (literal64 30) = true)
    /\ b = false.
Proof.
  destruct (generic_evaluate_constructed (A := binary64) 1 h)
    as (s & s' & h' & nm & l & Hinit & Heval & Hlast & Hfinal).
  eexists s, _, s', _, h', nm, l, _, _, _.
  split; [exact Hinit|]. split; [exact Heval|]. split; [exact Hlast|].
  split; [exact Hfinal|]. split; [reflexivity|].
  split; [vm_compute; reflexivity|].
  split; [vm_compute; reflexivity|].
  split; [vm_compute; reflexivity|].
  split; [vm_compute; reflexivity|].
  split; [|reflexivity].
  split; [discriminate|]. vm_compute. discriminate.
Qed.
